(** * MCSAR K9 scent cone: the geometry and scent-envelope core

    A shallow embedding of [src/lib/cone.ts] (the screen-space cone
    helpers, followed by the scent-envelope model that imports [clamp]
    from it) and the properties the specification states about it.

    Number model.  A JavaScript [number] is read as a real number: the
    arithmetic operators are the field operations of [R], comparisons are
    the order of [R], and the [Math] functions are their real counterparts.
    Rounding error, infinities and NaN are outside this model.  Strings are
    compared with [===]; the categorical inputs (cloud, precipitation,
    terrain, stability) are strings, as they are at run time.  [Date.parse]
    is a parameter of the entry point: it gives each timestamp its number
    of milliseconds. *)

From Stdlib Require Import Reals Lra Lia ZArith Bool List String.
Import ListNotations.

Open Scope R_scope.

(** ** JavaScript numbers and the parts of [Math] the source uses *)

Definition number : Type := R.

Definition Rltb (a b : R) : bool := if Rlt_dec a b then true else false.
Definition Rleb (a b : R) : bool := if Rle_dec a b then true else false.
Definition Rgtb (a b : R) : bool := Rltb b a.
Definition Rgeb (a b : R) : bool := Rleb b a.

Notation "a <? b" := (Rltb a b) : R_scope.
Notation "a <=? b" := (Rleb a b) : R_scope.
Notation "a >? b" := (Rgtb a b) : R_scope.
Notation "a >=? b" := (Rgeb a b) : R_scope.

(** [a === b] on strings. *)
Definition streq (a b : string) : bool := String.eqb a b.
Arguments streq (a b)%_string_scope.
Notation "a === b" := (streq a b) (at level 70, no associativity).

(** Truncation toward zero, the quotient of JavaScript's [%]. *)
Definition Rtrunc (a : R) : Z := if Rle_dec 0 a then Zfloor a else Zceil a.

(** [a % n]: the remainder takes the sign of the dividend. *)
Definition js_rem (a n : number) : number := a - n * IZR (Rtrunc (a / n)).

Module Math.

Definition PI : number := Rtrigo1.PI.
Definition max (a b : number) : number := Rmax a b.
Definition min (a b : number) : number := Rmin a b.
Definition sin (a : number) : number := Rtrigo_def.sin a.
Definition cos (a : number) : number := Rtrigo_def.cos a.
Definition exp (a : number) : number := Rtrigo_def.exp a.
Definition log (a : number) : number := ln a.
Definition sqrt (a : number) : number := R_sqrt.sqrt a.

(** [Math.round]: nearest integer, halves go up. *)
Definition round (a : number) : number := IZR (Zfloor (a + / 2)).

(** [Math.atan2 (y, x)]: the angle of the point [(x, y)]. *)
Definition atan2 (y x : number) : number :=
  if Rlt_dec 0 x then atan (y / x)
  else if Rlt_dec x 0 then
    (if Rle_dec 0 y then atan (y / x) + Rtrigo1.PI else atan (y / x) - Rtrigo1.PI)
  else if Rlt_dec 0 y then Rtrigo1.PI / 2
  else if Rlt_dec y 0 then - (Rtrigo1.PI / 2)
  else 0.

End Math.

(** ** cone.ts, first part: the screen-space cone *)

Module Cone.

Record XY : Type := mkXY { x : number; y : number }.

Definition mpsToMph (mps : number) : number := mps * 2.236936.

Definition mphToMps (mph : number) : number := mph / 2.236936.

Definition clamp (n a b : number) : number := Math.max a (Math.min b n).

Definition downwindDeg (fromDeg : number) : number :=
  js_rem (fromDeg + 180) 360.

Definition degToRad (d : number) : number := (d * Math.PI) / 180.

Definition rotatePoint (origin p : XY) (deg : number) : XY :=
  let r := degToRad deg in
  let s := Math.sin r in
  let c := Math.cos r in
  let x0 := x p - x origin in
  let y0 := y p - y origin in
  {| x := x origin + x0 * c - y0 * s;
     y := y origin + x0 * s + y0 * c |}.

Definition defaultHalfAngleDegFromMph (mph : number) : number :=
  if mph <=? 3 then 28
  else if mph <=? 8 then 22
  else if mph <=? 14 then 18
  else 14.

(** The object [computeCone] returns; its [downwindDeg] field is
    [cone_downwindDeg] here, the plain name being the function's. *)
Record ConeResult : Type := mkCone
  { left : XY; right : XY; tip : XY; cone_downwindDeg : number }.

Definition computeCone (src : XY) (lengthPx halfAngleDeg windFromDeg : number)
  : ConeResult :=
  let down := downwindDeg windFromDeg in
  let tip0 := {| x := x src + lengthPx; y := y src |} in
  let left0 := rotatePoint src tip0 (- halfAngleDeg) in
  let right0 := rotatePoint src tip0 halfAngleDeg in
  {| left := rotatePoint src left0 (- down);
     right := rotatePoint src right0 (- down);
     tip := rotatePoint src tip0 (- down);
     cone_downwindDeg := down |}.

(** Euclidean distance between two screen points. *)
Definition dist (a b : XY) : number :=
  Math.sqrt ((x b - x a) * (x b - x a) + (y b - y a) * (y b - y a)).

End Cone.

(** ** cone.ts, second part: the scent envelope *)

Module Envelope.

Import Cone.

Record LatLon : Type := mkLatLon { lat : number; lon : number }.

Record EnvelopePolys : Type := mkPolys
  { core : list LatLon; fringe : list LatLon; residual : list LatLon }.

Record StartPoint : Type := mkStart { label : string; point : LatLon }.

Definition metersPerDegreeLat : number := 111320.

Definition metersPerDegreeLon (latDeg : number) : number :=
  111320 * Math.cos ((latDeg * Math.PI) / 180).

(** Flat-earth displacement of [start] by [distanceMeters] along
    [bearingDeg] (clockwise from north). *)
Definition moveLL (start : LatLon) (bearingDeg distanceMeters : number)
  : LatLon :=
  let br := (bearingDeg * Math.PI) / 180 in
  let dNorth := Math.cos br * distanceMeters in
  let dEast := Math.sin br * distanceMeters in
  let dLat := dNorth / metersPerDegreeLat in
  let dLon := dEast / metersPerDegreeLon (lat start) in
  {| lat := lat start + dLat; lon := lon start + dLon |}.

Definition downwind (fromDeg : number) : number :=
  js_rem (fromDeg + 180) 360.

Definition terrainLenMult (t : string) : number :=
  if t === "open" then 1.1
  else if t === "forest" then 0.95
  else if t === "urban" then 0.85
  else if t === "swamp" then 0.9
  else if t === "beach" then 1.0
  else 1.0.

Definition stabilityMult (s : string) : number :=
  if s === "stable" then 0.9
  else if s === "convective" then 1.05
  else 1.0.

Definition mixMult (s terrain : string) : number :=
  let m := 1.0 in
  let m := if s === "stable" then m * 0.85 else m in
  let m := if s === "convective" then m * 1.25 else m in
  let m := if terrain === "urban" then m * 1.15 else m in
  m.

Definition tauMinutes (tempF rh : number) (cloud : string) (windMph : number)
  : number :=
  let tau := 180 in
  let tau :=
    if (tempF >? 85) || (rh <? 35) || (windMph >? 15) || (cloud === "clear")
    then 120 else tau in
  let tau :=
    if (tempF <? 65) && (rh >? 55)
       && ((cloud === "overcast") || (cloud === "night"))
    then 240 else tau in
  tau.

Definition confidenceScore (tMin tempF rh : number) (cloud precip : string)
    (recentRain : bool) (windMph : number) : number :=
  let tau := tauMinutes tempF rh cloud windMph in
  let cTime := 100 * Math.exp (- tMin / tau) in
  let hum := if rh <? 30 then 0.8 else if rh >? 60 then 1.1 else 1.0 in
  let temp := if tempF >? 85 then 0.85 else if tempF <? 60 then 1.05 else 1.0 in
  let sun :=
    if cloud === "clear" then 0.85
    else if cloud === "partly" then 0.95
    else if (cloud === "overcast") || (cloud === "night") then 1.05
    else 1.0 in
  let rain :=
    if precip === "heavy" then 0.75
    else if precip === "moderate" then 0.9
    else if precip === "light" then 0.9
    else 1.0 in
  let rain := if recentRain then rain * 0.95 else rain in
  let wind :=
    if windMph <=? 3 then 0.85
    else if windMph <=? 12 then 1.0
    else if windMph <=? 18 then 0.9
    else 0.8 in
  let c := cTime * hum * temp * sun * rain * wind in
  clamp (Math.round c) 5 100.

Definition confidenceBand (c : number) : string :=
  if c >=? 70 then "High"%string
  else if c >=? 40 then "Moderate"%string
  else "Low"%string.

Definition resetRecommendation (c : number) : number :=
  if c <? 40 then 30
  else if c <? 70 then 45
  else 60.

(** The body of [coneFan]'s [for] loop, run [n] more times from index [i]:
    each pass pushes one arc sample onto [poly]. *)
Fixpoint coneFan_loop (lkp : LatLon) (start end_ lengthM : number)
    (points n i : nat) (poly : list LatLon) : list LatLon :=
  match n with
  | O => poly
  | S n' =>
      let t := INR i / INR points in
      let b := start + (end_ - start) * t in
      coneFan_loop lkp start end_ lengthM points n' (S i)
        (poly ++ [moveLL lkp b lengthM])
  end.

(** [coneFan] with its [points] argument given ([end_] is the source's
    [end]). *)
Definition coneFan_points (lkp : LatLon) (axisDeg lengthM widthEndM : number)
    (points : nat) : list LatLon :=
  let halfAngle := Math.atan2 widthEndM lengthM in
  let start := axisDeg - (halfAngle * 180) / Math.PI in
  let end_ := axisDeg + (halfAngle * 180) / Math.PI in
  let poly := [] in
  let poly := poly ++ [lkp] in
  (* for (i = 0; i <= points; i++): points + 1 passes *)
  let poly := coneFan_loop lkp start end_ lengthM points (S points) 0 poly in
  let poly := poly ++ [lkp] in
  poly.

(** [coneFan] as every caller uses it: [points] defaults to 28. *)
Definition coneFan (lkp : LatLon) (axisDeg lengthM widthEndM : number)
  : list LatLon :=
  coneFan_points lkp axisDeg lengthM widthEndM 28.

Record EnvelopeInput : Type := mkInput
  { lkp_lat : number;
    lkp_lon : number;
    lkp_time_iso : string;
    now_time_iso : string;
    wind_from_deg : number;
    wind_speed_mph : number;
    temperature_f : number;
    rel_humidity_pct : number;
    cloud : string;
    precip : string;
    recent_rain : bool;
    terrain : string;
    stability : string }.

Record EnvelopeResult : Type := mkResult
  { minutes_since_lkp : number;
    polygons : EnvelopePolys;
    confidence_score : number;
    confidence_band : string;
    reset_recommendation_minutes : number;
    recommended_start_points : list StartPoint;
    deployment_notes : list string }.

(** *** The length and width model

    Each local constant of [computeScentEnvelope] is a definition of its
    own, taking the values it is computed from. *)

Definition L_base_ft (tMin : number) : number := 30 + 6.0 * tMin.

Definition L_wind_ft (W_eff tMin : number) : number :=
  120 * W_eff * Math.log (1 + tMin / 30).

Definition L_ft (tMin W_eff : number) (terrain stability : string) : number :=
  (L_base_ft tMin + L_wind_ft W_eff tMin)
  * terrainLenMult terrain * stabilityMult stability.

Definition L_m (tMin W_eff : number) (terrain stability : string) : number :=
  L_ft tMin W_eff terrain stability * 0.3048.

Definition Width_end_ft (tMin : number) (stability terrain : string) : number :=
  let mix := mixMult stability terrain in
  (20 + 3.5 * tMin + 40 * Math.sqrt (Math.max 1 tMin)) * mix.

Definition Width_end_m (tMin : number) (stability terrain : string) : number :=
  Width_end_ft tMin stability terrain * 0.3048.

Definition L_core (L_m : number) : number := 0.55 * L_m.
Definition W_core (Width_end_m : number) : number := 0.45 * Width_end_m.
Definition L_fringe (L_m : number) : number := 0.85 * L_m.
Definition W_fringe (Width_end_m : number) : number := 0.8 * Width_end_m.
Definition L_res (L_m : number) : number := 1.0 * L_m.
Definition W_res (Width_end_m : number) : number := 1.15 * Width_end_m.

(** *** The deployment notes *)

Definition note_low_wind : string :=
  "Low wind: scent pooling/eddy likely—work LKP and leeward obstacles.".
Definition note_high_wind : string :=
  "Higher wind: dilution/variability likely—use multiple start points and reassess often.".
Definition note_heavy_precip : string :=
  "Heavy precip can disrupt airborne scent—prioritize high-probability areas first.".
Definition note_low_confidence : string :=
  "Low confidence: use envelope as planning aid; prioritize tracks/POAs/intel.".
Definition note_moderate_confidence : string :=
  "Moderate confidence: core first, fringe support, residual if resources permit.".
Definition note_high_confidence : string :=
  "High confidence: deploy downwind along core axis, bracket fringe.".

(** [notes.push(s)]. *)
Definition push (notes : list string) (s : string) : list string :=
  notes ++ [s].

Definition deploymentNotes (W : number) (precip : string) (c : number)
  : list string :=
  let notes := [] in
  let notes := if W <=? 3 then push notes note_low_wind else notes in
  let notes := if W >=? 13 then push notes note_high_wind else notes in
  let notes :=
    if precip === "heavy" then push notes note_heavy_precip else notes in
  let notes :=
    if c <? 40 then push notes note_low_confidence
    else if c <? 70 then push notes note_moderate_confidence
    else push notes note_high_confidence in
  notes.

(** *** The entry point *)

Section WithClock.

(** [Date.parse] on the two timestamps of a request: milliseconds since
    the epoch. *)
Variable Date_parse : string -> number.

(** The locals [tMin], [W], [W_eff], [L_m], [Width_end_m], [axis] and [c]
    of [computeScentEnvelope], as functions of the request. *)

Definition tMin (input : EnvelopeInput) : number :=
  Math.max 0
    (Math.round
       ((Date_parse (now_time_iso input) - Date_parse (lkp_time_iso input))
        / 60000)).

Definition W (input : EnvelopeInput) : number :=
  Math.max 0 (wind_speed_mph input).

Definition W_eff (input : EnvelopeInput) : number := Math.min (W input) 18.

Definition env_L_m (input : EnvelopeInput) : number :=
  L_m (tMin input) (W_eff input) (terrain input) (stability input).

Definition env_Width_end_m (input : EnvelopeInput) : number :=
  Width_end_m (tMin input) (stability input) (terrain input).

Definition axis (input : EnvelopeInput) : number :=
  downwind (wind_from_deg input).

Definition env_c (input : EnvelopeInput) : number :=
  confidenceScore (tMin input) (temperature_f input)
    (rel_humidity_pct input) (cloud input) (precip input)
    (recent_rain input) (W input).

Definition computeScentEnvelope (input : EnvelopeInput) : EnvelopeResult :=
  let lkp := {| lat := lkp_lat input; lon := lkp_lon input |} in
  let tMin := tMin input in
  let W := W input in
  let L_m := env_L_m input in
  let Width_end_m := env_Width_end_m input in
  let axis := axis input in
  let polys :=
    {| core := coneFan lkp axis (L_core L_m) (W_core Width_end_m);
       fringe := coneFan lkp axis (L_fringe L_m) (W_fringe Width_end_m);
       residual := coneFan lkp axis (L_res L_m) (W_res Width_end_m) |} in
  let c := env_c input in
  let notes := deploymentNotes W (precip input) c in
  let startPoints :=
    [ {| label := "LKP (Immediate)"; point := lkp |};
      {| label := "Core Midline (~35%)";
         point := moveLL lkp axis (0.35 * L_m) |};
      {| label := "Core Far (~55%)";
         point := moveLL lkp axis (0.55 * L_m) |} ] in
  {| minutes_since_lkp := tMin;
     polygons := polys;
     confidence_score := c;
     confidence_band := confidenceBand c;
     reset_recommendation_minutes := resetRecommendation c;
     recommended_start_points := startPoints;
     deployment_notes := notes |}.

End WithClock.

End Envelope.

(** ** pages/api/wind.ts: the wind handler's arithmetic *)

Module WindApi.

(** The value of [bestDiff]: a number, or [Infinity] before the first
    comparison. *)
Inductive extnum : Type :=
| Finite (d : number)
| Infinity.

(** [d < bestDiff]. *)
Definition lt_ext (d : number) (bestDiff : extnum) : bool :=
  match bestDiff with
  | Finite b => d <? b
  | Infinity => true
  end.

(** [Math.abs]. *)
Definition Math_abs (a : number) : number := Rabs a.

Section WithClock.

(** [Date.parse] on the hourly time stamps of the weather service. *)
Variable Date_parse : string -> number.

(** The loop that picks the hour nearest to [target] ([Date.now()] in the
    hourly mode, the requested time in the historical mode): [times] holds
    the entries from index [i] on, [best] and [bestDiff] are the loop's
    variables. *)
Fixpoint nearest_loop (times : list string) (target : number) (i best : nat)
    (bestDiff : extnum) : nat :=
  match times with
  | [] => best
  | time :: rest =>
      let t := Date_parse time in
      let d := Math_abs (t - target) in
      if lt_ext d bestDiff
      then nearest_loop rest target (S i) i (Finite d)
      else nearest_loop rest target (S i) best bestDiff
  end.

Definition nearestHour (times : list string) (target : number) : nat :=
  let best := 0%nat in
  let bestDiff := Infinity in
  nearest_loop times target 0 best bestDiff.

End WithClock.

(** The wind speed of the response, from the service's km/h. *)
Definition wind_speed_mps (ws : number) : number :=
  let mph := ws * 0.621371 in
  let mps := mph / 2.236936 in
  mps.

End WindApi.

(** ** components/LiveMap.tsx: the lists the map page keeps *)

Module LiveMap.

Record LKP : Type := mkLKP
  { id : string; lat : number; lon : number; timeISO : string;
    label : option string }.

Record Trap : Type := mkTrap
  { trap_id : string; trap_lat : number; trap_lon : number;
    trap_label : string }.

Inductive AppMode : Type := live | scenario.
Inductive MapMode : Type := setSource | addTrap.

(** The state [onMapClick] reads and writes. *)
Record PageState : Type := mkPage
  { appMode : AppMode;
    mapMode : MapMode;
    lockSource : bool;
    lkps : list LKP;
    activeLkpId : option string;
    traps : list Trap;
    newTrapLabel : string;
    scenarioLL : option (number * number) }.

(** The page as it is first rendered. *)
Definition initialPage : PageState :=
  {| appMode := live;
     mapMode := setSource;
     lockSource := true;
     lkps := [];
     activeLkpId := None;
     traps := [];
     newTrapLabel := "Terrain trap";
     scenarioLL := None |}.

(** [lkps.find((k) => k.id === activeLkpId) ?? null]. *)
Definition activeLkp (lkps : list LKP) (activeLkpId : option string)
  : option LKP :=
  match activeLkpId with
  | Some a => find (fun k => id k === a) lkps
  | None => None
  end.

(** [a || b] on strings: the empty string is falsy. *)
Definition or_default (a b : string) : string :=
  if a === "" then b else a.

(** [onMapClick (lat, lon)], without the redraw and the wind fetch; [uid] is
    the identifier [uid (...)] would return and [isoNow] the time stamp of
    the click. *)
Definition onMapClick (uid isoNow : string) (lat lon : number)
    (st : PageState) : PageState :=
  match mapMode st with
  | addTrap =>
      let trap :=
        {| trap_id := uid; trap_lat := lat; trap_lon := lon;
           trap_label := or_default (newTrapLabel st) "Terrain trap" |} in
      {| appMode := appMode st; mapMode := mapMode st;
         lockSource := lockSource st; lkps := lkps st;
         activeLkpId := activeLkpId st;
         traps := trap :: traps st;
         newTrapLabel := newTrapLabel st; scenarioLL := scenarioLL st |}
  | setSource =>
      match appMode st with
      | scenario =>
          {| appMode := appMode st; mapMode := mapMode st;
             lockSource := lockSource st; lkps := lkps st;
             activeLkpId := activeLkpId st; traps := traps st;
             newTrapLabel := newTrapLabel st;
             scenarioLL := Some (lat, lon) |}
      | live =>
          let active := activeLkp (lkps st) (activeLkpId st) in
          match lockSource st, active with
          | true, Some _ => st
          | _, _ =>
              let id0 := match active with Some k => id k | None => uid end in
              let label0 :=
                match active with
                | Some k =>
                    match label k with Some l => l | None => "LKP"%string end
                | None => "LKP"%string
                end in
              let lkp :=
                {| id := id0; lat := lat; lon := lon; timeISO := isoNow;
                   label := Some label0 |} in
              {| appMode := appMode st; mapMode := mapMode st;
                 lockSource := lockSource st;
                 lkps := lkp :: filter (fun p => negb (id p === id0)) (lkps st);
                 activeLkpId := Some id0; traps := traps st;
                 newTrapLabel := newTrapLabel st;
                 scenarioLL := scenarioLL st |}
          end
      end
  end.

(** The "Remove" button of a trap: [p.filter((x) => x.id !== t.id)]. *)
Definition removeTrap (t : Trap) (p : list Trap) : list Trap :=
  filter (fun x0 => negb (trap_id x0 === trap_id t)) p.

(** The time bands are whole minutes, taken from the five buttons. *)
Definition bandButtons : list Z := [15; 30; 60; 120; 240]%Z.

Definition initialBandSet : list Z := [15; 30; 60; 120]%Z.

(** [prev.includes (m)]. *)
Definition includes (prev : list Z) (m : Z) : bool :=
  existsb (fun x0 => Z.eqb x0 m) prev.

(** A band button's click:
    [prev.includes(m) ? prev.filter((x) => x !== m) : [...prev, m]]. *)
Definition toggleBand (m : Z) (prev : list Z) : list Z :=
  if includes prev m then filter (fun x0 => negb (Z.eqb x0 m)) prev
  else prev ++ [m].

(** What the page can do between two renders: a click on the map, a change
    of one of the switches, the removal of a trap. *)
Inductive step : PageState -> PageState -> Prop :=
| step_click uid isoNow lat lon st :
    step st (onMapClick uid isoNow lat lon st)
| step_settings am mm lock lbl st :
    step st
      {| appMode := am; mapMode := mm; lockSource := lock; lkps := lkps st;
         activeLkpId := activeLkpId st; traps := traps st;
         newTrapLabel := lbl; scenarioLL := scenarioLL st |}
| step_remove t st :
    step st
      {| appMode := appMode st; mapMode := mapMode st;
         lockSource := lockSource st; lkps := lkps st;
         activeLkpId := activeLkpId st; traps := removeTrap t (traps st);
         newTrapLabel := newTrapLabel st; scenarioLL := scenarioLL st |}.

Inductive reachable : PageState -> Prop :=
| reachable_initial : reachable initialPage
| reachable_step st st' : reachable st -> step st st' -> reachable st'.

Inductive bands_reachable : list Z -> Prop :=
| bands_initial : bands_reachable initialBandSet
| bands_toggle m prev :
    In m bandButtons -> bands_reachable prev ->
    bands_reachable (toggleBand m prev).

End LiveMap.

(** ** Notions the specification uses *)

(** The residue of [a] modulo [n], for comparison with [js_rem]. *)
Definition Rmod (a n : R) : R := a - n * IZR (Zfloor (a / n)).

(** The two regimes of the time-decay constant, in the specification's
    words. *)
Definition fast_decay_regime (tempF rh : number) (cloud : string)
    (windMph : number) : Prop :=
  tempF > 85 \/ rh < 35 \/ windMph > 15 \/ cloud = "clear"%string.

Definition slow_decay_regime (tempF rh : number) (cloud : string) : Prop :=
  tempF < 65 /\ rh > 55 /\ (cloud = "overcast"%string \/ cloud = "night"%string).

(** The closing note of each confidence band. *)
Definition band_note (band : string) : string :=
  if band === "High" then Envelope.note_high_confidence
  else if band === "Moderate" then Envelope.note_moderate_confidence
  else Envelope.note_low_confidence.

Definition is_band_note (s : string) : bool :=
  (s === Envelope.note_low_confidence)
  || (s === Envelope.note_moderate_confidence)
  || (s === Envelope.note_high_confidence).

(** The bearing of the [i]-th arc sample of a fan of [points] steps. *)
Definition fan_bearing (axisDeg lengthM widthEndM : number) (points i : nat)
  : number :=
  let halfAngle := Math.atan2 widthEndM lengthM in
  let start := axisDeg - (halfAngle * 180) / Math.PI in
  let end_ := axisDeg + (halfAngle * 180) / Math.PI in
  start + (end_ - start) * (INR i / INR points).

(** A clock that reads every timestamp as the epoch, and a request in calm,
    mild weather with a south wind, evaluated at the LKP time. *)
Definition epoch_clock : string -> number := fun _ => 0.

Definition calm_request : Envelope.EnvelopeInput :=
  {| Envelope.lkp_lat := 0;
     Envelope.lkp_lon := 0;
     Envelope.lkp_time_iso := "1970-01-01T00:00:00.000Z";
     Envelope.now_time_iso := "1970-01-01T00:00:00.000Z";
     Envelope.wind_from_deg := 180;
     Envelope.wind_speed_mph := 0;
     Envelope.temperature_f := 75;
     Envelope.rel_humidity_pct := 50;
     Envelope.cloud := "partly";
     Envelope.precip := "none";
     Envelope.recent_rain := false;
     Envelope.terrain := "mixed";
     Envelope.stability := "neutral" |}.

(** The specification's end-to-end scenario: evaluation one hour after the
    LKP time, wind 10 mph from the west, mild weather. *)
Definition scenario_clock (iso : string) : number :=
  if iso === "2024-01-01T13:00:00.000Z" then 1704114000000
  else if iso === "2024-01-01T12:00:00.000Z" then 1704110400000
  else 0.

Definition scenario_request : Envelope.EnvelopeInput :=
  {| Envelope.lkp_lat := 27.49;
     Envelope.lkp_lon := -82.45;
     Envelope.lkp_time_iso := "2024-01-01T12:00:00.000Z";
     Envelope.now_time_iso := "2024-01-01T13:00:00.000Z";
     Envelope.wind_from_deg := 270;
     Envelope.wind_speed_mph := 10;
     Envelope.temperature_f := 75;
     Envelope.rel_humidity_pct := 50;
     Envelope.cloud := "partly";
     Envelope.precip := "none";
     Envelope.recent_rain := false;
     Envelope.terrain := "mixed";
     Envelope.stability := "neutral" |}.

(** * Properties *)

(** ** The number model *)

Lemma Rltb_true (a b : R) : (a <? b) = true <-> a < b.
Proof. unfold Rltb; destruct (Rlt_dec a b); split; intros; try easy. Qed.

Lemma Rltb_false (a b : R) : (a <? b) = false <-> b <= a.
Proof.
  unfold Rltb; destruct (Rlt_dec a b); split; intros; try easy; lra.
Qed.

Lemma Rleb_true (a b : R) : (a <=? b) = true <-> a <= b.
Proof. unfold Rleb; destruct (Rle_dec a b); split; intros; try easy. Qed.

Lemma Rleb_false (a b : R) : (a <=? b) = false <-> b < a.
Proof.
  unfold Rleb; destruct (Rle_dec a b); split; intros; try easy; lra.
Qed.

(** Case analysis on every comparison of the goal. *)
Ltac cmp_cases :=
  unfold Rgtb, Rgeb, Rltb, Rleb in *;
  repeat match goal with
    | |- context [Rlt_dec ?a ?b] => destruct (Rlt_dec a b)
    | |- context [Rle_dec ?a ?b] => destruct (Rle_dec a b)
    end.

Lemma Rmod_bounds (a n : R) : 0 < n -> 0 <= Rmod a n < n.
Proof.
  intros Hn. unfold Rmod.
  pose proof (Zfloor_bound (a / n)) as [Hlo Hhi].
  assert (Ha : a = n * (a / n)) by (field; lra).
  split; rewrite Ha at 1; nra.
Qed.

Lemma Rtrunc_nonneg (a : R) : 0 <= a -> Rtrunc a = Zfloor a.
Proof. intros H. unfold Rtrunc. destruct (Rle_dec 0 a); [reflexivity | lra]. Qed.

Lemma Rtrunc_neg (a : R) : a < 0 -> Rtrunc a = Zceil a.
Proof. intros H. unfold Rtrunc. destruct (Rle_dec 0 a); [lra | reflexivity]. Qed.

Lemma js_rem_nonneg (a n : R) : 0 < n -> 0 <= a -> js_rem a n = Rmod a n.
Proof.
  intros Hn Ha. unfold js_rem, Rmod. rewrite Rtrunc_nonneg; [reflexivity |].
  apply Rmult_le_pos; [lra | left; apply Rinv_0_lt_compat; lra].
Qed.

(** A negative dividend never gives a positive remainder. *)
Lemma js_rem_neg (a n : R) : 0 < n -> a < 0 -> - n < js_rem a n <= 0.
Proof.
  intros Hn Ha. unfold js_rem.
  assert (Hq : a / n < 0).
  { unfold Rdiv. assert (0 < / n) by (apply Rinv_0_lt_compat; lra). nra. }
  rewrite Rtrunc_neg by exact Hq.
  pose proof (Zceil_bound (a / n)) as [Hlo Hhi].
  assert (Ha' : a = n * (a / n)) by (field; lra).
  split; rewrite Ha' at 1; nra.
Qed.

Lemma js_rem_small_neg (a n : R) : 0 < n -> - n < a < 0 -> js_rem a n = a.
Proof.
  intros Hn [Hlo Hhi]. unfold js_rem.
  assert (Hi : 0 < / n) by (apply Rinv_0_lt_compat; lra).
  assert (Hq : -1 < a / n < 0).
  { unfold Rdiv. split; [| nra].
    apply Rmult_lt_reg_r with n; [lra |].
    rewrite Rmult_assoc, Rinv_l by lra. lra. }
  rewrite Rtrunc_neg by lra.
  rewrite (Zceil_eq 0 (a / n)) by (simpl; lra).
  simpl. lra.
Qed.

(** ** cone.ts, first part *)

Module ConeSpec.

Import Cone.

Lemma sin_cos_square (r : R) : Math.sin r * Math.sin r + Math.cos r * Math.cos r = 1.
Proof. unfold Math.sin, Math.cos. pose proof (sin2_cos2 r) as H. unfold Rsqr in H. exact H. Qed.

Lemma rotatePoint_dist (origin p : XY) (deg : number) :
  dist origin (rotatePoint origin p deg) = dist origin p.
Proof.
  unfold dist, rotatePoint; cbn [x y].
  set (s := Math.sin (degToRad deg)). set (c := Math.cos (degToRad deg)).
  assert (H : s * s + c * c = 1) by apply sin_cos_square.
  f_equal.
  set (x0 := x p - x origin). set (y0 := y p - y origin).
  replace (x origin + x0 * c - y0 * s - x origin) with (x0 * c - y0 * s) by ring.
  replace (y origin + x0 * s + y0 * c - y origin) with (x0 * s + y0 * c) by ring.
  transitivity ((x0 * x0 + y0 * y0) * (s * s + c * c)); [ring |].
  rewrite H. ring.
Qed.

(** C9. [rotatePoint] keeps the Euclidean distance to [origin]: for every
    origin, point and angle, the rotated point is as far from [origin] as
    the point was. *)
Theorem rotatePoint_isometry (origin p : XY) (deg : number) :
  dist origin (rotatePoint origin p deg) = dist origin p.
Proof. apply rotatePoint_dist. Qed.

(** The three points of a cone are all [lengthPx] away from the source,
    up to sign of the length. *)
Lemma computeCone_tip_distance (src : XY) (lengthPx halfAngleDeg windFromDeg : number) :
  dist src (tip (computeCone src lengthPx halfAngleDeg windFromDeg)) = Rabs lengthPx
  /\ dist src (left (computeCone src lengthPx halfAngleDeg windFromDeg)) = Rabs lengthPx
  /\ dist src (right (computeCone src lengthPx halfAngleDeg windFromDeg)) = Rabs lengthPx.
Proof.
  unfold computeCone; cbn [tip left right].
  rewrite !rotatePoint_dist.
  assert (E : dist src {| x := x src + lengthPx; y := y src |} = Rabs lengthPx).
  { unfold dist; cbn [x y]. unfold Math.sqrt.
    replace ((x src + lengthPx - x src) * (x src + lengthPx - x src)
             + (y src - y src) * (y src - y src)) with (Rsqr lengthPx)
      by (unfold Rsqr; ring).
    apply sqrt_Rsqr_abs. }
  rewrite E. repeat split.
Qed.

(** The half-angle policy at the specification's sample speeds and at its
    three boundaries. *)
Lemma defaultHalfAngleDegFromMph_samples :
  defaultHalfAngleDegFromMph 2 = 28 /\ defaultHalfAngleDegFromMph 5 = 22
  /\ defaultHalfAngleDegFromMph 10 = 18 /\ defaultHalfAngleDegFromMph 20 = 14
  /\ defaultHalfAngleDegFromMph 3 = 28 /\ defaultHalfAngleDegFromMph 8 = 22
  /\ defaultHalfAngleDegFromMph 14 = 18.
Proof.
  unfold defaultHalfAngleDegFromMph. repeat split; cmp_cases; lra.
Qed.

Lemma clamp_range (n a b : number) : a <= b -> a <= clamp n a b <= b.
Proof.
  intros Hab. unfold clamp, Math.max, Math.min, Rmax, Rmin.
  destruct (Rle_dec b n); destruct (Rle_dec a _); lra.
Qed.

(** *** The downwind bearing *)

Lemma downwindDeg_from_minus180 (fromDeg : number) :
  -180 <= fromDeg -> downwindDeg fromDeg = Rmod (fromDeg + 180) 360.
Proof. intros H. unfold downwindDeg. apply js_rem_nonneg; lra. Qed.

(** Below -180 the result is never positive: JavaScript's [%] keeps the
    sign of the dividend. *)
Lemma downwindDeg_below_minus180 (fromDeg : number) :
  fromDeg < -180 -> -360 < downwindDeg fromDeg <= 0.
Proof. intros H. unfold downwindDeg. apply js_rem_neg; lra. Qed.

Lemma downwind_is_downwindDeg (fromDeg : number) :
  Envelope.downwind fromDeg = downwindDeg fromDeg.
Proof. reflexivity. Qed.

(** C7, as amended. For every [fromDeg >= -180] (so for every bearing in
    [[0,360)]), [downwindDeg] returns the residue of [fromDeg + 180] modulo
    360, which lies in [[0,360)]; the envelope's [downwind] and the
    [downwindDeg] field of [computeCone]'s result are that same value. *)
Theorem downwindDeg_normalized (fromDeg : number) :
  -180 <= fromDeg ->
  0 <= downwindDeg fromDeg < 360
  /\ downwindDeg fromDeg = Rmod (fromDeg + 180) 360
  /\ Envelope.downwind fromDeg = downwindDeg fromDeg
  /\ (forall src lengthPx halfAngleDeg,
        cone_downwindDeg (computeCone src lengthPx halfAngleDeg fromDeg)
        = downwindDeg fromDeg).
Proof.
  intros H. rewrite (downwindDeg_from_minus180 fromDeg H).
  split; [apply Rmod_bounds; lra |].
  split; [reflexivity |].
  split; [rewrite downwind_is_downwindDeg; apply downwindDeg_from_minus180; exact H |].
  intros src lengthPx halfAngleDeg. unfold computeCone; cbn [cone_downwindDeg].
  apply downwindDeg_from_minus180; exact H.
Qed.

Lemma downwindDeg_normalized_witness :
  -180 <= 270
  /\ 0 <= downwindDeg 270 < 360
  /\ downwindDeg 270 = Rmod (270 + 180) 360.
Proof.
  assert (H : -180 <= 270) by lra.
  destruct (downwindDeg_normalized 270 H) as (Hr & He & _).
  split; [exact H |]. split; [exact Hr | exact He].
Defined.

(** C7, as stated, fails for a bearing below -180: from -270 the code
    returns -90, outside [[0,360)], while the residue is 270. *)
Lemma downwindDeg_counterexample :
  downwindDeg (-270) = -90
  /\ Rmod (-270 + 180) 360 = 270
  /\ ~ (0 <= downwindDeg (-270) < 360)
  /\ downwindDeg (-270) <> Rmod (-270 + 180) 360.
Proof.
  assert (E1 : downwindDeg (-270) = -90).
  { unfold downwindDeg. replace (-270 + 180) with (-90) by lra.
    apply js_rem_small_neg; lra. }
  assert (E2 : Rmod (-270 + 180) 360 = 270).
  { unfold Rmod. rewrite (Zfloor_eq (-1) ((-270 + 180) / 360)) by lra. lra. }
  rewrite E1, E2. repeat split; lra.
Qed.

End ConeSpec.

(** ** cone.ts, second part *)

Module EnvelopeSpec.

Import Cone Envelope.

Lemma streq_true (a b : string) : (a === b) = true <-> a = b.
Proof. unfold streq. apply String.eqb_eq. Qed.

Lemma streq_false (a b : string) : (a === b) = false <-> a <> b.
Proof. unfold streq. apply String.eqb_neq. Qed.

(** *** The time-decay constant *)

Lemma fast_decay_regime_test (tempF rh : number) (cloud : string) (windMph : number) :
  ((tempF >? 85) || (rh <? 35) || (windMph >? 15) || (cloud === "clear")) = true
  <-> fast_decay_regime tempF rh cloud windMph.
Proof.
  unfold fast_decay_regime, Rgtb.
  rewrite !orb_true_iff, !Rltb_true, streq_true. unfold Rgt. tauto.
Qed.

Lemma slow_decay_regime_test (tempF rh : number) (cloud : string) :
  ((tempF <? 65) && (rh >? 55) && ((cloud === "overcast") || (cloud === "night"))) = true
  <-> slow_decay_regime tempF rh cloud.
Proof.
  unfold slow_decay_regime, Rgtb.
  rewrite !andb_true_iff, orb_true_iff, !Rltb_true, !streq_true. unfold Rgt. tauto.
Qed.

Lemma tauMinutes_cases (tempF rh : number) (cloud : string) (windMph : number) :
  (slow_decay_regime tempF rh cloud -> tauMinutes tempF rh cloud windMph = 240)
  /\ (~ slow_decay_regime tempF rh cloud ->
      fast_decay_regime tempF rh cloud windMph ->
      tauMinutes tempF rh cloud windMph = 120)
  /\ (~ slow_decay_regime tempF rh cloud ->
      ~ fast_decay_regime tempF rh cloud windMph ->
      tauMinutes tempF rh cloud windMph = 180).
Proof.
  pose proof (fast_decay_regime_test tempF rh cloud windMph) as Hf.
  pose proof (slow_decay_regime_test tempF rh cloud) as Hs.
  unfold tauMinutes.
  destruct ((tempF >? 85) || (rh <? 35) || (windMph >? 15) || (cloud === "clear"));
    destruct ((tempF <? 65) && (rh >? 55) && ((cloud === "overcast") || (cloud === "night")));
    repeat split; intros; try reflexivity;
    try (exfalso; intuition congruence).
Qed.

(** C1, as amended. The slow-decay rule is the one that prevails: tau is
    240 whenever (temp<65 and RH>55 and sky overcast or night), also when
    wind>15; otherwise tau is 120 if (temp>85 or RH<35 or wind>15 or sky
    clear); otherwise tau is 180. *)
Theorem tauMinutes_regimes (tempF rh : number) (cloud : string) (windMph : number) :
  (slow_decay_regime tempF rh cloud -> tauMinutes tempF rh cloud windMph = 240)
  /\ (~ slow_decay_regime tempF rh cloud ->
      fast_decay_regime tempF rh cloud windMph ->
      tauMinutes tempF rh cloud windMph = 120)
  /\ (~ slow_decay_regime tempF rh cloud ->
      ~ fast_decay_regime tempF rh cloud windMph ->
      tauMinutes tempF rh cloud windMph = 180)
  /\ (fast_decay_regime tempF rh cloud windMph ->
      slow_decay_regime tempF rh cloud ->
      windMph > 15 /\ tauMinutes tempF rh cloud windMph = 240).
Proof.
  destruct (tauMinutes_cases tempF rh cloud windMph) as (H1 & H2 & H3).
  split; [exact H1 |]. split; [exact H2 |]. split; [exact H3 |].
  intros Hfast Hslow. split; [| apply H1; exact Hslow].
  destruct Hfast as [Ht | [Hr | [Hw | Hc]]]; destruct Hslow as (Ht' & Hr' & Hc');
    try lra; try exact Hw.
  subst cloud. destruct Hc'; discriminate.
Qed.

(** C1, as stated, fails where both rules match: at 60°F, 60% RH, overcast
    and 16 mph the first rule's condition holds, and tau is 240, not 120. *)
Lemma tauMinutes_counterexample :
  fast_decay_regime 60 60 "overcast" 16
  /\ slow_decay_regime 60 60 "overcast"
  /\ tauMinutes 60 60 "overcast" 16 = 240
  /\ tauMinutes 60 60 "overcast" 16 <> 120.
Proof.
  assert (Hs : slow_decay_regime 60 60 "overcast").
  { unfold slow_decay_regime. repeat split; try lra. left; reflexivity. }
  assert (E : tauMinutes 60 60 "overcast" 16 = 240)
    by (apply (tauMinutes_cases 60 60 "overcast" 16); exact Hs).
  split; [unfold fast_decay_regime; right; right; left; lra |].
  split; [exact Hs |]. split; [exact E |]. rewrite E. lra.
Qed.

(** *** The confidence score, its band and the reset recommendation *)

Lemma clamp_integer (z : Z) :
  clamp (IZR z) 5 100 = IZR (Z.max 5 (Z.min 100 z)).
Proof.
  unfold clamp, Math.max, Math.min.
  destruct (Z_le_gt_dec z 5) as [H5 | H5].
  - rewrite Z.min_r, Z.max_l by lia.
    apply IZR_le in H5.
    rewrite Rmin_right by lra. rewrite Rmax_left by lra. reflexivity.
  - destruct (Z_le_gt_dec z 100) as [H100 | H100].
    + rewrite Z.min_r, Z.max_r by lia.
      apply IZR_le in H100. assert (5 < IZR z) by (apply IZR_lt; lia).
      rewrite Rmin_right by lra. rewrite Rmax_right by lra. reflexivity.
    + rewrite Z.min_l, Z.max_r by lia.
      assert (100 < IZR z) by (apply IZR_lt; lia).
      rewrite Rmin_left by lra. rewrite Rmax_right by lra. reflexivity.
Qed.

Lemma confidenceScore_integer (tMin tempF rh : number) (cloud precip : string)
    (recentRain : bool) (windMph : number) :
  exists z : Z,
    confidenceScore tMin tempF rh cloud precip recentRain windMph = IZR z
    /\ (5 <= z <= 100)%Z.
Proof.
  unfold confidenceScore, Math.round. rewrite clamp_integer.
  eexists; split; [reflexivity | lia].
Qed.

Lemma confidenceScore_range (tMin tempF rh : number) (cloud precip : string)
    (recentRain : bool) (windMph : number) :
  5 <= confidenceScore tMin tempF rh cloud precip recentRain windMph <= 100.
Proof.
  destruct (confidenceScore_integer tMin tempF rh cloud precip recentRain windMph)
    as (z & -> & Hlo & Hhi).
  split; apply IZR_le; assumption.
Qed.

Lemma confidenceBand_High (c : number) : confidenceBand c = "High"%string <-> 70 <= c.
Proof.
  unfold confidenceBand. cmp_cases; split; intros; try discriminate; try lra; reflexivity.
Qed.

Lemma confidenceBand_Moderate (c : number) :
  confidenceBand c = "Moderate"%string <-> 40 <= c < 70.
Proof.
  unfold confidenceBand. cmp_cases; split; intros; try discriminate; try lra; reflexivity.
Qed.

Lemma confidenceBand_Low (c : number) : confidenceBand c = "Low"%string <-> c < 40.
Proof.
  unfold confidenceBand. cmp_cases; split; intros; try discriminate; try lra; reflexivity.
Qed.

Lemma resetRecommendation_by_band (c : number) :
  (confidenceBand c = "High"%string -> resetRecommendation c = 60)
  /\ (confidenceBand c = "Moderate"%string -> resetRecommendation c = 45)
  /\ (confidenceBand c = "Low"%string -> resetRecommendation c = 30).
Proof.
  rewrite confidenceBand_High, confidenceBand_Moderate, confidenceBand_Low.
  unfold resetRecommendation. cmp_cases; repeat split; intros; try lra; reflexivity.
Qed.

(** C4. For every request the confidence score is an integer of [[5,100]];
    the band is "High" exactly when the score is at least 70, "Moderate"
    exactly when it is in [[40,70)], and "Low" exactly when it is below 40, so
    it is a function of the score alone; the reset recommendation is 60, 45
    and 30 minutes for High, Moderate and Low. *)
Theorem confidence_score_band_reset (Date_parse : string -> number)
    (input : EnvelopeInput) :
  let r := computeScentEnvelope Date_parse input in
  (exists z : Z, confidence_score r = IZR z /\ (5 <= z <= 100)%Z)
  /\ 5 <= confidence_score r <= 100
  /\ confidence_band r = confidenceBand (confidence_score r)
  /\ (confidence_band r = "High"%string <-> 70 <= confidence_score r)
  /\ (confidence_band r = "Moderate"%string <-> 40 <= confidence_score r < 70)
  /\ (confidence_band r = "Low"%string <-> confidence_score r < 40)
  /\ (confidence_band r = "High"%string -> reset_recommendation_minutes r = 60)
  /\ (confidence_band r = "Moderate"%string -> reset_recommendation_minutes r = 45)
  /\ (confidence_band r = "Low"%string -> reset_recommendation_minutes r = 30).
Proof.
  cbn zeta. unfold computeScentEnvelope.
  cbn [confidence_score confidence_band reset_recommendation_minutes].
  split; [apply confidenceScore_integer |].
  split; [apply confidenceScore_range |].
  split; [reflexivity |].
  split; [apply confidenceBand_High |].
  split; [apply confidenceBand_Moderate |].
  split; [apply confidenceBand_Low |].
  apply resetRecommendation_by_band.
Qed.

(** *** The fan polygon *)

Lemma coneFan_loop_samples (lkp : LatLon) (start end_ lengthM : number)
    (points n : nat) :
  forall (i : nat) (poly : list LatLon),
    coneFan_loop lkp start end_ lengthM points n i poly
    = poly ++ map (fun k => moveLL lkp (start + (end_ - start) * (INR k / INR points)) lengthM)
                  (seq i n).
Proof.
  induction n as [| n IH]; intros i poly; cbn [coneFan_loop seq map].
  - now rewrite app_nil_r.
  - rewrite IH, <- app_assoc. reflexivity.
Qed.

Lemma coneFan_points_shape (lkp : LatLon) (axisDeg lengthM widthEndM : number)
    (points : nat) :
  coneFan_points lkp axisDeg lengthM widthEndM points
  = lkp :: map (fun i => moveLL lkp (fan_bearing axisDeg lengthM widthEndM points i) lengthM)
               (seq 0 (S points))
        ++ [lkp].
Proof.
  unfold coneFan_points. cbv zeta. rewrite coneFan_loop_samples. reflexivity.
Qed.

Lemma coneFan_points_length (lkp : LatLon) (axisDeg lengthM widthEndM : number)
    (points : nat) :
  List.length (coneFan_points lkp axisDeg lengthM widthEndM points) = (points + 3)%nat.
Proof.
  rewrite coneFan_points_shape. cbn [List.length].
  rewrite length_app, length_map, length_seq. cbn [List.length]. lia.
Qed.

Lemma coneFan_closed (lkp : LatLon) (axisDeg lengthM widthEndM : number) :
  hd_error (coneFan lkp axisDeg lengthM widthEndM) = Some lkp
  /\ (forall d, last (coneFan lkp axisDeg lengthM widthEndM) d = lkp).
Proof.
  unfold coneFan. rewrite coneFan_points_shape. split; [reflexivity |].
  intros d. rewrite app_comm_cons. apply last_last.
Qed.

Lemma atan2_nonneg (y0 x0 : number) : 0 <= y0 -> 0 <= Math.atan2 y0 x0.
Proof.
  intros Hy. unfold Math.atan2.
  pose proof PI_RGT_0 as Hpi.
  destruct (Rlt_dec 0 x0) as [Hx | Hx].
  - destruct (Req_dec y0 0) as [-> | Hne].
    + unfold Rdiv. rewrite Rmult_0_l, atan_0. lra.
    + left. rewrite <- atan_0. apply atan_increasing.
      apply Rdiv_lt_0_compat; lra.
  - destruct (Rlt_dec x0 0) as [Hx' | Hx'].
    + destruct (Rle_dec 0 y0) as [_ | Hn]; [| lra].
      pose proof (atan_bound (y0 / x0)) as [Hlo _]. lra.
    + destruct (Rlt_dec 0 y0); [lra |].
      destruct (Rlt_dec y0 0); lra.
Qed.

Lemma fan_bearing_step (axisDeg lengthM widthEndM : number) (i : nat) :
  fan_bearing axisDeg lengthM widthEndM 28 (S i)
  - fan_bearing axisDeg lengthM widthEndM 28 i
  = (2 * ((Math.atan2 widthEndM lengthM * 180) / Math.PI)) / 28.
Proof.
  unfold fan_bearing. cbv zeta. rewrite S_INR.
  replace (INR 28) with 28 by (simpl; lra). field.
  unfold Math.PI. apply PI_neq0.
Qed.

Lemma fan_bearing_monotone (axisDeg lengthM widthEndM : number) (i j : nat) :
  0 <= widthEndM -> (i <= j)%nat ->
  fan_bearing axisDeg lengthM widthEndM 28 i
  <= fan_bearing axisDeg lengthM widthEndM 28 j.
Proof.
  intros Hw Hij. induction Hij as [| j Hij IH]; [lra |].
  pose proof (fan_bearing_step axisDeg lengthM widthEndM j) as Hs.
  pose proof (atan2_nonneg widthEndM lengthM Hw) as Ha.
  assert (Hd : 0 <= (Math.atan2 widthEndM lengthM * 180) / Math.PI).
  { apply Rmult_le_pos; [lra |]. left. apply Rinv_0_lt_compat.
    unfold Math.PI. apply PI_RGT_0. }
  lra.
Qed.

(** The displacement [moveLL] makes, measured in meters north and east,
    has length [distanceMeters] (away from the poles, where a degree of
    longitude has no length). *)
Lemma moveLL_distance (start : LatLon) (bearingDeg distanceMeters : number) :
  metersPerDegreeLon (lat start) <> 0 ->
  let p := moveLL start bearingDeg distanceMeters in
  let north := (lat p - lat start) * metersPerDegreeLat in
  let east := (lon p - lon start) * metersPerDegreeLon (lat start) in
  north * north + east * east = distanceMeters * distanceMeters.
Proof.
  intros Hne. unfold moveLL. cbn [lat lon]. cbv zeta.
  set (br := bearingDeg * Math.PI / 180).
  pose proof (ConeSpec.sin_cos_square br) as H.
  set (s := Math.sin br) in *. set (c := Math.cos br) in *.
  set (m := metersPerDegreeLon (lat start)) in *.
  unfold metersPerDegreeLat.
  replace ((lat start + c * distanceMeters / 111320 - lat start) * 111320)
    with (c * distanceMeters) by (field; lra).
  replace ((lon start + s * distanceMeters / m - lon start) * m)
    with (s * distanceMeters) by (field; exact Hne).
  transitivity ((s * s + c * c) * (distanceMeters * distanceMeters)); [ring |].
  rewrite H. ring.
Qed.

(** C3, as amended. [coneFan] computes the half angle as
    [atan2 (width, length)], and returns the LKP, then 29 samples, then the
    LKP: sample [i] (for i = 0..28) is [moveLL] of the LKP by [length]
    meters along the bearing [start + (end - start) * i / 28], so the 29
    bearings go from axis minus the half angle to axis plus the half angle
    in 28 equal steps, increasing with [i] when the width is not
    negative. *)
Theorem coneFan_samples (lkp : LatLon) (axisDeg lengthM widthEndM : number) :
  let halfAngleDeg := (Math.atan2 widthEndM lengthM * 180) / Math.PI in
  let bearing := fan_bearing axisDeg lengthM widthEndM 28 in
  coneFan lkp axisDeg lengthM widthEndM
  = [lkp] ++ map (fun i => moveLL lkp (bearing i) lengthM) (seq 0 29) ++ [lkp]
  /\ List.length (coneFan lkp axisDeg lengthM widthEndM) = 31%nat
  /\ bearing 0%nat = axisDeg - halfAngleDeg
  /\ bearing 28%nat = axisDeg + halfAngleDeg
  /\ (forall i, bearing (S i) - bearing i = (2 * halfAngleDeg) / 28)
  /\ (0 <= widthEndM -> forall i j, (i <= j)%nat -> bearing i <= bearing j).
Proof.
  cbv zeta. split; [unfold coneFan; apply coneFan_points_shape |].
  split; [unfold coneFan; apply coneFan_points_length |].
  split.
  { unfold fan_bearing. cbv zeta. simpl INR. lra. }
  split.
  { unfold fan_bearing. cbv zeta. replace (INR 28) with 28 by (simpl; lra). lra. }
  split; [intros i; apply fan_bearing_step |].
  intros Hw i j Hij. apply fan_bearing_monotone; assumption.
Qed.

(** C3, as stated, fails on the number of samples: no list of 28 points
    sits between the two copies of the LKP, the polygon has 31 vertices. *)
Lemma coneFan_counterexample :
  let lkp := {| lat := 0; lon := 0 |} in
  ~ (exists samples : list LatLon,
       List.length samples = 28%nat
       /\ coneFan lkp 0 100 50 = [lkp] ++ samples ++ [lkp]).
Proof.
  cbv zeta. intros (samples & Hlen & Heq).
  apply (f_equal (@List.length LatLon)) in Heq.
  unfold coneFan in Heq. rewrite coneFan_points_length in Heq.
  cbn [app List.length] in Heq. rewrite length_app, Hlen in Heq.
  cbn [List.length] in Heq. lia.
Qed.

(** C5. For every request, each of the three polygons starts and ends with
    the LKP. *)
Theorem polygons_closed (Date_parse : string -> number) (input : EnvelopeInput) :
  let r := computeScentEnvelope Date_parse input in
  let lkp := {| lat := lkp_lat input; lon := lkp_lon input |} in
  (hd_error (core (polygons r)) = Some lkp
   /\ forall d, last (core (polygons r)) d = lkp)
  /\ (hd_error (fringe (polygons r)) = Some lkp
      /\ forall d, last (fringe (polygons r)) d = lkp)
  /\ (hd_error (residual (polygons r)) = Some lkp
      /\ forall d, last (residual (polygons r)) d = lkp).
Proof.
  cbv zeta. unfold computeScentEnvelope. cbn [polygons core fringe residual].
  repeat split; intros; apply coneFan_closed.
Qed.

(** *** The deployment notes *)

Lemma deploymentNotes_shape (W : number) (precip : string) (c : number) :
  deploymentNotes W precip c
  = ((if W <=? 3 then [note_low_wind] else [])
     ++ (if W >=? 13 then [note_high_wind] else [])
     ++ (if precip === "heavy" then [note_heavy_precip] else []))
    ++ [band_note (confidenceBand c)].
Proof.
  unfold deploymentNotes, push, band_note, confidenceBand.
  destruct (precip === "heavy"); cmp_cases; try lra; reflexivity.
Qed.

Lemma band_note_is_band_note (c : number) :
  is_band_note (band_note (confidenceBand c)) = true.
Proof. unfold confidenceBand. cmp_cases; reflexivity. Qed.

Lemma deploymentNotes_one_band_note (W : number) (precip : string) (c : number) :
  List.length (filter is_band_note (deploymentNotes W precip c)) = 1%nat.
Proof.
  rewrite deploymentNotes_shape. rewrite filter_app. cbn [filter].
  rewrite band_note_is_band_note, length_app. cbn [List.length].
  destruct (W <=? 3), (W >=? 13), (precip === "heavy"); reflexivity.
Qed.

(** C10. For every request the deployment notes are not empty; they are
    the caution notes that apply (low wind, then high wind, then heavy
    precipitation) followed by the closing note of the returned confidence
    band, which is the last element and the only band note of the list. *)
Theorem deployment_notes_band_note_last (Date_parse : string -> number)
    (input : EnvelopeInput) :
  let r := computeScentEnvelope Date_parse input in
  let W := Math.max 0 (wind_speed_mph input) in
  let cautions :=
    (if W <=? 3 then [note_low_wind] else [])
    ++ (if W >=? 13 then [note_high_wind] else [])
    ++ (if precip input === "heavy" then [note_heavy_precip] else []) in
  deployment_notes r <> []
  /\ deployment_notes r = cautions ++ [band_note (confidence_band r)]
  /\ (forall d, last (deployment_notes r) d = band_note (confidence_band r))
  /\ List.length (filter is_band_note (deployment_notes r)) = 1%nat
  /\ filter is_band_note cautions = [].
Proof.
  cbv zeta. unfold computeScentEnvelope.
  cbn [deployment_notes confidence_band]. fold (W input).
  pose proof (deploymentNotes_shape (W input) (precip input) (env_c Date_parse input)) as E.
  split; [rewrite E; intros Habs; apply app_eq_nil in Habs; destruct Habs; discriminate |].
  split; [exact E |].
  split; [intros d; rewrite E; apply last_last |].
  split; [apply deploymentNotes_one_band_note |].
  destruct (W input <=? 3), (W input >=? 13), (precip input === "heavy"); reflexivity.
Qed.

(** *** The length and width model *)

Lemma terrainLenMult_pos (t : string) : 0 < terrainLenMult t.
Proof. unfold terrainLenMult. repeat destruct (t === _); lra. Qed.

Lemma stabilityMult_pos (s : string) : 0 < stabilityMult s.
Proof. unfold stabilityMult. repeat destruct (s === _); lra. Qed.

Lemma mixMult_pos (s terrain : string) : 0 < mixMult s terrain.
Proof.
  unfold mixMult. cbv zeta.
  destruct (s === "stable"), (s === "convective"), (terrain === "urban"); lra.
Qed.

Lemma ln_nondecreasing (a b : R) : 0 < a -> a <= b -> ln a <= ln b.
Proof.
  intros Ha [Hlt | ->]; [left; apply ln_increasing; assumption | right; reflexivity].
Qed.

Lemma log_growth_nonneg (t : number) : 0 <= t -> 0 <= Math.log (1 + t / 30).
Proof.
  intros Ht. unfold Math.log. rewrite <- ln_1. apply ln_nondecreasing; lra.
Qed.

Lemma log_growth_monotone (t1 t2 : number) :
  0 <= t1 <= t2 -> Math.log (1 + t1 / 30) <= Math.log (1 + t2 / 30).
Proof. intros [H0 H12]. unfold Math.log. apply ln_nondecreasing; lra. Qed.

Lemma sqrt_floor_monotone (t1 t2 : number) :
  t1 <= t2 -> Math.sqrt (Math.max 1 t1) <= Math.sqrt (Math.max 1 t2).
Proof.
  intros H. unfold Math.sqrt, Math.max.
  apply sqrt_le_1_alt, Rle_max_compat_l, H.
Qed.

Lemma L_ft_bracket_monotone (W_eff t1 t2 : number) :
  0 <= W_eff -> 0 <= t1 <= t2 ->
  L_base_ft t1 + L_wind_ft W_eff t1 <= L_base_ft t2 + L_wind_ft W_eff t2.
Proof.
  intros Hw Ht. unfold L_base_ft, L_wind_ft.
  pose proof (log_growth_monotone t1 t2 Ht) as Hl.
  assert (120 * W_eff * Math.log (1 + t1 / 30) <= 120 * W_eff * Math.log (1 + t2 / 30)).
  { apply Rmult_le_compat_l; [lra | exact Hl]. }
  lra.
Qed.

Lemma L_m_monotone (W_eff : number) (terrain stability : string) (t1 t2 : number) :
  0 <= W_eff -> 0 <= t1 <= t2 ->
  L_m t1 W_eff terrain stability <= L_m t2 W_eff terrain stability.
Proof.
  intros Hw Ht. unfold L_m, L_ft.
  pose proof (L_ft_bracket_monotone W_eff t1 t2 Hw Ht) as Hb.
  pose proof (terrainLenMult_pos terrain) as Hp.
  pose proof (stabilityMult_pos stability) as Hs.
  repeat (apply Rmult_le_compat_r; [lra |]). exact Hb.
Qed.

Lemma L_m_pos (W_eff : number) (terrain stability : string) (t : number) :
  0 <= W_eff -> 0 <= t -> 0 < L_m t W_eff terrain stability.
Proof.
  intros Hw Ht. unfold L_m, L_ft, L_base_ft, L_wind_ft.
  pose proof (terrainLenMult_pos terrain) as Hp.
  pose proof (stabilityMult_pos stability) as Hs.
  pose proof (log_growth_nonneg t Ht) as Hl.
  assert (0 <= 120 * W_eff * Math.log (1 + t / 30))
    by (apply Rmult_le_pos; [lra | exact Hl]).
  repeat (apply Rmult_lt_0_compat; try lra).
Qed.

Lemma Width_end_m_monotone (terrain stability : string) (t1 t2 : number) :
  0 <= t1 <= t2 ->
  Width_end_m t1 stability terrain <= Width_end_m t2 stability terrain.
Proof.
  intros [H0 H12]. unfold Width_end_m, Width_end_ft. cbv zeta.
  pose proof (mixMult_pos stability terrain) as Hm.
  pose proof (sqrt_floor_monotone t1 t2 H12) as Hq.
  repeat (apply Rmult_le_compat_r; [lra |]). lra.
Qed.

Lemma Width_end_m_pos (terrain stability : string) (t : number) :
  0 <= t -> 0 < Width_end_m t stability terrain.
Proof.
  intros Ht. unfold Width_end_m, Width_end_ft. cbv zeta.
  pose proof (mixMult_pos stability terrain) as Hm.
  assert (0 <= Math.sqrt (Math.max 1 t)) by (unfold Math.sqrt; apply sqrt_pos).
  repeat (apply Rmult_lt_0_compat; try lra).
Qed.

Lemma W_eff_of_speed_range (speed : number) :
  0 <= Math.min (Math.max 0 speed) 18 <= 18.
Proof.
  unfold Math.min, Math.max, Rmin, Rmax.
  destruct (Rle_dec 0 speed); destruct (Rle_dec _ 18); lra.
Qed.

Lemma tMin_integer (Date_parse : string -> number) (input : EnvelopeInput) :
  exists z : Z, (0 <= z)%Z /\ tMin Date_parse input = IZR z.
Proof.
  unfold tMin, Math.round, Math.max.
  set (z := Zfloor _). exists (Z.max 0 z).
  split; [lia |].
  destruct (Z_le_gt_dec 0 z) as [H | H].
  - rewrite Z.max_r by lia. apply Rmax_right. apply IZR_le. exact H.
  - rewrite Z.max_l by lia. apply Rmax_left. apply IZR_le. lia.
Qed.

Lemma tMin_nonneg (Date_parse : string -> number) (input : EnvelopeInput) :
  0 <= tMin Date_parse input.
Proof. unfold tMin, Math.max. apply Rmax_l. Qed.

Lemma env_L_m_pos (Date_parse : string -> number) (input : EnvelopeInput) :
  0 < env_L_m Date_parse input.
Proof.
  unfold env_L_m. apply L_m_pos; [| apply tMin_nonneg].
  unfold W_eff, W. apply W_eff_of_speed_range.
Qed.

Lemma env_Width_end_m_pos (Date_parse : string -> number) (input : EnvelopeInput) :
  0 < env_Width_end_m Date_parse input.
Proof. unfold env_Width_end_m. apply Width_end_m_pos, tMin_nonneg. Qed.

(** C6. For every request the three zones are built from one length and
    one width, neither negative, and are nested: the core zone's length and
    end width are at most the fringe zone's, which are at most the residual
    zone's. *)
Theorem zones_nested (Date_parse : string -> number) (input : EnvelopeInput) :
  let r := computeScentEnvelope Date_parse input in
  let lkp := {| lat := lkp_lat input; lon := lkp_lon input |} in
  let axis := axis input in
  let L := env_L_m Date_parse input in
  let Wd := env_Width_end_m Date_parse input in
  (0 <= L /\ 0 <= Wd)
  /\ (L_core L = 0.55 * L /\ L_fringe L = 0.85 * L /\ L_res L = 1.0 * L)
  /\ (W_core Wd = 0.45 * Wd /\ W_fringe Wd = 0.8 * Wd /\ W_res Wd = 1.15 * Wd)
  /\ L_core L <= L_fringe L <= L_res L
  /\ W_core Wd <= W_fringe Wd <= W_res Wd
  /\ core (polygons r) = coneFan lkp axis (L_core L) (W_core Wd)
  /\ fringe (polygons r) = coneFan lkp axis (L_fringe L) (W_fringe Wd)
  /\ residual (polygons r) = coneFan lkp axis (L_res L) (W_res Wd).
Proof.
  cbv zeta.
  pose proof (env_L_m_pos Date_parse input) as HL.
  pose proof (env_Width_end_m_pos Date_parse input) as HW.
  unfold L_core, L_fringe, L_res, W_core, W_fringe, W_res.
  repeat split; try lra.
Qed.

(** C8. With wind speed, terrain and stability fixed, the envelope's total
    length and end width do not decrease as the elapsed minutes grow: for
    integers [0 <= t1 <= t2], length and width at [t1] are at most those at
    [t2]. *)
Theorem length_width_monotone (speed : number) (terrain stability : string)
    (t1 t2 : Z) :
  (0 <= t1 <= t2)%Z ->
  let W_eff := Math.min (Math.max 0 speed) 18 in
  L_m (IZR t1) W_eff terrain stability <= L_m (IZR t2) W_eff terrain stability
  /\ Width_end_m (IZR t1) stability terrain
     <= Width_end_m (IZR t2) stability terrain.
Proof.
  intros [H0 H12]. cbv zeta.
  assert (Ht : 0 <= IZR t1 <= IZR t2) by (split; apply IZR_le; assumption).
  split.
  - apply L_m_monotone; [apply W_eff_of_speed_range | exact Ht].
  - apply Width_end_m_monotone; exact Ht.
Qed.

Lemma length_width_monotone_witness :
  (0 <= 0 <= 60)%Z
  /\ L_m (IZR 0) (Math.min (Math.max 0 10) 18) "mixed" "neutral"
     <= L_m (IZR 60) (Math.min (Math.max 0 10) 18) "mixed" "neutral"
  /\ Width_end_m (IZR 0) "neutral" "mixed" <= Width_end_m (IZR 60) "neutral" "mixed".
Proof.
  assert (H : (0 <= 0 <= 60)%Z) by lia.
  split; [exact H |].
  exact (length_width_monotone 10 "mixed" "neutral" 0 60 H).
Defined.

(** The same on two requests that differ only in their timestamps. *)
Lemma envelope_monotone_requests (Date_parse : string -> number)
    (in1 in2 : EnvelopeInput) :
  wind_speed_mph in1 = wind_speed_mph in2 ->
  terrain in1 = terrain in2 ->
  stability in1 = stability in2 ->
  tMin Date_parse in1 <= tMin Date_parse in2 ->
  env_L_m Date_parse in1 <= env_L_m Date_parse in2
  /\ env_Width_end_m Date_parse in1 <= env_Width_end_m Date_parse in2.
Proof.
  intros Hw Ht Hs Hle. unfold env_L_m, env_Width_end_m, W_eff, W.
  rewrite Hw, Ht, Hs.
  pose proof (tMin_nonneg Date_parse in1) as H0.
  split.
  - apply L_m_monotone; [apply W_eff_of_speed_range | lra].
  - apply Width_end_m_monotone; lra.
Qed.

(** *** The recommended start points *)

Lemma calm_request_tMin : tMin epoch_clock calm_request = 0.
Proof.
  unfold tMin, epoch_clock, Math.round, Math.max.
  replace ((0 - 0) / 60000 + / 2) with (/ 2) by lra.
  rewrite (Zfloor_eq 0 (/ 2)) by lra.
  apply Rmax_left; lra.
Qed.

Lemma calm_request_L_m : env_L_m epoch_clock calm_request = 9.144.
Proof.
  unfold env_L_m. rewrite calm_request_tMin.
  unfold W_eff, W, L_m, L_ft, L_base_ft, L_wind_ft. cbn [wind_speed_mph terrain stability calm_request].
  replace (Math.max 0 0) with 0 by (unfold Math.max; rewrite Rmax_left; lra).
  replace (Math.min 0 18) with 0 by (unfold Math.min; rewrite Rmin_left; lra).
  replace (terrainLenMult "mixed") with 1.0 by reflexivity.
  replace (stabilityMult "neutral") with 1.0 by reflexivity.
  lra.
Qed.

Lemma calm_request_axis : axis calm_request = 0.
Proof.
  unfold axis, downwind, js_rem. cbn [wind_from_deg calm_request].
  replace ((180 + 180) / 360) with 1 by lra.
  rewrite Rtrunc_nonneg by lra.
  rewrite (Zfloor_eq 1 1) by lra. lra.
Qed.

Lemma moveLL_north_lat (start : LatLon) (distanceMeters : number) :
  lat (moveLL start 0 distanceMeters) = lat start + distanceMeters / 111320.
Proof.
  unfold moveLL. cbn [lat]. cbv zeta. unfold metersPerDegreeLat, Math.cos, Math.PI.
  replace (0 * PI / 180) with 0 by lra. rewrite cos_0. lra.
Qed.

(** C2, as amended. For every request there are exactly three start
    points, in this order: the LKP ("LKP (Immediate)"), the point at 35%
    of the total envelope length [L_m] along the downwind axis ("Core
    Midline (~35%)"), and the point at 55% of [L_m] along the same axis
    ("Core Far (~55%)"), which is the far end of the core zone, whose
    length is 0.55 times [L_m]. The three distances from the LKP increase. *)
Theorem start_points_along_axis (Date_parse : string -> number)
    (input : EnvelopeInput) :
  let r := computeScentEnvelope Date_parse input in
  let lkp := {| lat := lkp_lat input; lon := lkp_lon input |} in
  let axis := axis input in
  let L := env_L_m Date_parse input in
  recommended_start_points r
  = [ {| label := "LKP (Immediate)"; point := lkp |};
      {| label := "Core Midline (~35%)"; point := moveLL lkp axis (0.35 * L) |};
      {| label := "Core Far (~55%)"; point := moveLL lkp axis (0.55 * L) |} ]
  /\ List.length (recommended_start_points r) = 3%nat
  /\ 0 < 0.35 * L < 0.55 * L
  /\ 0.55 * L = L_core L.
Proof.
  cbv zeta. pose proof (env_L_m_pos Date_parse input) as HL.
  unfold computeScentEnvelope, L_core. cbn [recommended_start_points].
  repeat split; lra.
Qed.

(** C2, as stated, fails: measured against the core-zone length
    [0.55 * L_m], the second point of the calm request would be 1.76022 m
    north of the LKP, and the code puts it 3.2004 m north (35% of the
    9.144 m envelope). *)
Lemma start_points_counterexample :
  let r := computeScentEnvelope epoch_clock calm_request in
  let lkp := {| lat := 0; lon := 0 |} in
  let axis := axis calm_request in
  let coreLength := L_core (env_L_m epoch_clock calm_request) in
  map point (recommended_start_points r)
  <> [ lkp; moveLL lkp axis (0.35 * coreLength); moveLL lkp axis (0.55 * coreLength) ].
Proof.
  cbv zeta. unfold computeScentEnvelope. cbn [recommended_start_points map point].
  cbn [lkp_lat lkp_lon calm_request].
  rewrite calm_request_axis, calm_request_L_m. unfold L_core.
  intros Heq.
  apply (f_equal (fun l => lat (nth 1 l {| lat := 0; lon := 0 |}))) in Heq.
  cbn [nth] in Heq. rewrite !moveLL_north_lat in Heq.
  cbn [lat] in Heq. lra.
Qed.

(** *** The specification's scenario, run on the model *)

Lemma exp_double (a : R) : exp (2 * a) = exp a * exp a.
Proof. replace (2 * a) with (a + a) by ring. apply exp_plus. Qed.

(** [exp (-1/3)] by four squarings of [exp (-1/48)]. *)
Lemma exp_minus_third_bounds : 0.7135 <= exp (- (1 / 3)) <= 0.72.
Proof.
  assert (H1 : 47 / 48 <= exp (- (1 / 48)) <= 48 / 49).
  { split.
    - pose proof (exp_ineq1_le (- (1 / 48))). lra.
    - rewrite exp_Ropp. pose proof (exp_ineq1_le (1 / 48)) as Hp.
      apply Rmult_le_reg_r with (exp (1 / 48)); [apply exp_pos |].
      rewrite Rinv_l by (pose proof (exp_pos (1 / 48)); lra). lra. }
  assert (H2 : 0.9587 <= exp (- (1 / 24)) <= 0.9597).
  { replace (- (1 / 24)) with (2 * - (1 / 48)) by lra. rewrite exp_double. nra. }
  assert (H4 : 0.9191 <= exp (- (1 / 12)) <= 0.9211).
  { replace (- (1 / 12)) with (2 * - (1 / 24)) by lra. rewrite exp_double. nra. }
  assert (H8 : 0.8447 <= exp (- (1 / 6)) <= 0.8485).
  { replace (- (1 / 6)) with (2 * - (1 / 12)) by lra. rewrite exp_double. nra. }
  replace (- (1 / 3)) with (2 * - (1 / 6)) by lra. rewrite exp_double. nra.
Qed.

Lemma scenario_tMin : tMin scenario_clock scenario_request = 60.
Proof.
  unfold tMin, Math.round, Math.max. cbn [now_time_iso lkp_time_iso scenario_request].
  replace (scenario_clock "2024-01-01T13:00:00.000Z") with 1704114000000 by reflexivity.
  replace (scenario_clock "2024-01-01T12:00:00.000Z") with 1704110400000 by reflexivity.
  rewrite (Zfloor_eq 60) by lra.
  apply Rmax_right; lra.
Qed.

Lemma scenario_score : env_c scenario_clock scenario_request = 68.
Proof.
  unfold env_c. rewrite scenario_tMin.
  cbn [temperature_f rel_humidity_pct cloud precip recent_rain scenario_request].
  unfold W. cbn [wind_speed_mph scenario_request].
  replace (Math.max 0 10) with 10 by (unfold Math.max; rewrite Rmax_right; lra).
  unfold confidenceScore.
  assert (Htau : tauMinutes 75 50 "partly" 10 = 180).
  { apply tauMinutes_cases.
    - unfold slow_decay_regime. lra.
    - unfold fast_decay_regime. intros [H | [H | [H | H]]]; try lra; discriminate. }
  rewrite Htau. cbv zeta.
  replace ("partly" === "clear") with false by reflexivity.
  replace ("partly" === "partly") with true by reflexivity.
  replace ("none" === "heavy") with false by reflexivity.
  replace ("none" === "moderate") with false by reflexivity.
  replace ("none" === "light") with false by reflexivity.
  replace (50 <? 30) with false by (symmetry; apply Rltb_false; lra).
  replace (50 >? 60) with false by (symmetry; apply Rltb_false; lra).
  replace (75 >? 85) with false by (symmetry; apply Rltb_false; lra).
  replace (75 <? 60) with false by (symmetry; apply Rltb_false; lra).
  replace (10 <=? 3) with false by (symmetry; apply Rleb_false; lra).
  replace (10 <=? 12) with true by (symmetry; apply Rleb_true; lra).
  cbv beta iota. unfold Math.exp. replace (Ropp 60 / 180) with (- (1 / 3)) by lra.
  pose proof exp_minus_third_bounds as [Hlo Hhi].
  unfold Math.round. rewrite (Zfloor_eq 68) by lra.
  rewrite clamp_integer. reflexivity.
Qed.

(** One hour after the LKP time, in the scenario's mild weather, the model
    gives 60 elapsed minutes, a score of 68 in the Moderate band, a reset
    after 45 minutes, three start points, and the Moderate note alone. *)
Lemma scenario_result :
  let r := computeScentEnvelope scenario_clock scenario_request in
  minutes_since_lkp r = 60
  /\ confidence_score r = 68
  /\ confidence_band r = "Moderate"%string
  /\ reset_recommendation_minutes r = 45
  /\ List.length (recommended_start_points r) = 3%nat
  /\ deployment_notes r = [note_moderate_confidence].
Proof.
  cbv zeta. unfold computeScentEnvelope.
  cbn [minutes_since_lkp confidence_score confidence_band
       reset_recommendation_minutes recommended_start_points deployment_notes].
  rewrite scenario_score.
  split; [apply scenario_tMin |]. split; [reflexivity |].
  split; [apply confidenceBand_Moderate; lra |].
  split; [unfold resetRecommendation; cmp_cases; lra |].
  split; [reflexivity |].
  rewrite deploymentNotes_shape.
  replace (confidenceBand 68) with "Moderate"%string
    by (symmetry; apply confidenceBand_Moderate; lra).
  unfold W. cbn [wind_speed_mph precip scenario_request].
  replace (Math.max 0 10) with 10 by (unfold Math.max; rewrite Rmax_right; lra).
  replace (10 <=? 3) with false by (symmetry; apply Rleb_false; lra).
  replace (10 >=? 13) with false by (symmetry; apply Rleb_false; lra).
  replace ("none" === "heavy") with false by reflexivity.
  reflexivity.
Qed.

End EnvelopeSpec.

(** ** More on cone.ts, first part *)

Module ConeExtra.

Import Cone.

Lemma degToRad_plus (a b : number) : degToRad (a + b) = degToRad a + degToRad b.
Proof. unfold degToRad. lra. Qed.

Lemma degToRad_turns (deg : number) (k : Z) :
  degToRad (deg + 360 * IZR k) = degToRad deg + 2 * IZR k * PI.
Proof. unfold degToRad, Math.PI. lra. Qed.

Lemma cos_period_Z (a : R) (k : Z) : cos (a + 2 * IZR k * PI) = cos a.
Proof.
  destruct (Z_le_gt_dec 0 k) as [Hk | Hk].
  - rewrite <- (Z2Nat.id k Hk), <- INR_IZR_INZ. apply cos_period.
  - rewrite <- (cos_period (a + 2 * IZR k * PI) (Z.to_nat (- k))).
    rewrite INR_IZR_INZ, Z2Nat.id by lia. rewrite opp_IZR. f_equal. lra.
Qed.

Lemma sin_period_Z (a : R) (k : Z) : sin (a + 2 * IZR k * PI) = sin a.
Proof.
  destruct (Z_le_gt_dec 0 k) as [Hk | Hk].
  - rewrite <- (Z2Nat.id k Hk), <- INR_IZR_INZ. apply sin_period.
  - rewrite <- (sin_period (a + 2 * IZR k * PI) (Z.to_nat (- k))).
    rewrite INR_IZR_INZ, Z2Nat.id by lia. rewrite opp_IZR. f_equal. lra.
Qed.

Lemma rotatePoint_turns (origin p : XY) (deg : number) (k : Z) :
  rotatePoint origin p (deg + 360 * IZR k) = rotatePoint origin p deg.
Proof.
  unfold rotatePoint. cbv zeta. rewrite degToRad_turns.
  unfold Math.sin, Math.cos. rewrite cos_period_Z, sin_period_Z. reflexivity.
Qed.

Lemma rotatePoint_plus (origin p : XY) (a b : number) :
  rotatePoint origin (rotatePoint origin p a) b = rotatePoint origin p (a + b).
Proof.
  unfold rotatePoint. cbv zeta. cbn [x y]. rewrite degToRad_plus.
  unfold Math.sin, Math.cos. rewrite cos_plus, sin_plus.
  f_equal; ring.
Qed.

Lemma rotatePoint_zero (origin p : XY) : rotatePoint origin p 0 = p.
Proof.
  destruct p as [px py].
  unfold rotatePoint, degToRad, Math.sin, Math.cos. cbn [x y].
  replace (0 * Math.PI / 180) with 0 by lra. rewrite cos_0, sin_0.
  f_equal; ring.
Qed.

Lemma rotatePoint_pair_dist (origin p q : XY) (deg : number) :
  dist (rotatePoint origin p deg) (rotatePoint origin q deg) = dist p q.
Proof.
  unfold dist, rotatePoint; cbn [x y].
  set (s := Math.sin (degToRad deg)). set (c := Math.cos (degToRad deg)).
  assert (H : s * s + c * c = 1) by apply ConeSpec.sin_cos_square.
  f_equal.
  set (dx := x q - x p). set (dy := y q - y p).
  transitivity ((dx * dx + dy * dy) * (s * s + c * c));
    [unfold dx, dy; ring | rewrite H; ring].
Qed.

(** X1. Converting a speed from m/s to mph and back, or from mph to m/s
    and back, gives the speed again. *)
Theorem speed_units_round_trip (v : number) :
  mphToMps (mpsToMph v) = v /\ mpsToMph (mphToMps v) = v.
Proof. unfold mphToMps, mpsToMph. split; lra. Qed.

(** X2. [clamp n a b] is never below [a]; with [a <= b] it is never above
    [b] and leaves a value of [[a,b]] alone; with the bounds the wrong way
    round it is [a]; clamping twice is clamping once. *)
Theorem clamp_behaviour (n a b : number) :
  a <= clamp n a b
  /\ (a <= b -> clamp n a b <= b)
  /\ (a <= n <= b -> clamp n a b = n)
  /\ (b < a -> clamp n a b = a)
  /\ clamp (clamp n a b) a b = clamp n a b.
Proof.
  unfold clamp, Math.max, Math.min, Rmax, Rmin.
  repeat split; intros;
    repeat match goal with
      | |- context [Rle_dec ?u ?v] =>
          lazymatch v with
          | context [Rle_dec] => fail
          | _ => destruct (Rle_dec u v)
          end
      end; lra.
Qed.

(** X3. The default half angle never grows with the wind speed, and is
    always between 14 and 28 degrees. *)
Theorem defaultHalfAngle_narrows (mph1 mph2 : number) :
  mph1 <= mph2 ->
  defaultHalfAngleDegFromMph mph2 <= defaultHalfAngleDegFromMph mph1
  /\ 14 <= defaultHalfAngleDegFromMph mph1 <= 28.
Proof.
  intros H. unfold defaultHalfAngleDegFromMph. cmp_cases; lra.
Qed.

Lemma defaultHalfAngle_narrows_witness :
  2 <= 20
  /\ defaultHalfAngleDegFromMph 20 <= defaultHalfAngleDegFromMph 2
  /\ 14 <= defaultHalfAngleDegFromMph 2 <= 28.
Proof.
  assert (H : 2 <= 20) by lra.
  split; [exact H | exact (defaultHalfAngle_narrows 2 20 H)].
Defined.

(** X4. Rotations about one origin add up: rotating by [a] and then by
    [b] is rotating by [a + b]; rotating by 0 changes nothing, so rotating
    back by [- a] undoes a rotation by [a]. *)
Theorem rotatePoint_composes (origin p : XY) (a b : number) :
  rotatePoint origin (rotatePoint origin p a) b = rotatePoint origin p (a + b)
  /\ rotatePoint origin p 0 = p
  /\ rotatePoint origin (rotatePoint origin p a) (- a) = p.
Proof.
  split; [apply rotatePoint_plus |]. split; [apply rotatePoint_zero |].
  rewrite rotatePoint_plus. replace (a + - a) with 0 by lra.
  apply rotatePoint_zero.
Qed.

(** X5. A rotation keeps the distance between any two points, and leaves
    its origin where it is. *)
Theorem rotatePoint_rigid (origin p q : XY) (deg : number) :
  dist (rotatePoint origin p deg) (rotatePoint origin q deg) = dist p q
  /\ rotatePoint origin origin deg = origin.
Proof.
  split; [apply rotatePoint_pair_dist |].
  destruct origin as [ox oy]. unfold rotatePoint. cbn [x y]. f_equal; ring.
Qed.

(** X6. Whole turns do not matter: rotating by [deg] plus any multiple of
    360 degrees is rotating by [deg]. *)
Theorem rotatePoint_whole_turns (origin p : XY) (deg : number) (k : Z) :
  rotatePoint origin p (deg + 360 * IZR k) = rotatePoint origin p deg.
Proof. apply rotatePoint_turns. Qed.

(** *** The cone's three points *)

Lemma downwindDeg_turns (fromDeg : number) :
  exists k : Z, downwindDeg fromDeg = fromDeg + 180 + 360 * IZR k.
Proof.
  unfold downwindDeg, js_rem.
  exists (- Rtrunc ((fromDeg + 180) / 360))%Z. rewrite opp_IZR. lra.
Qed.

(** Rotating by minus the downwind bearing is rotating by minus
    [fromDeg + 180], whatever the sign of the remainder. *)
Lemma rotate_by_downwind (origin p : XY) (a fromDeg : number) :
  rotatePoint origin p (a - downwindDeg fromDeg)
  = rotatePoint origin p (a - (fromDeg + 180)).
Proof.
  destruct (downwindDeg_turns fromDeg) as (k & ->).
  replace (a - (fromDeg + 180 + 360 * IZR k))
    with (a - (fromDeg + 180) + 360 * IZR (- k)) by (rewrite opp_IZR; lra).
  apply rotatePoint_turns.
Qed.

Lemma computeCone_points (src : XY) (lengthPx halfAngleDeg windFromDeg : number) :
  let tip0 := {| x := x src + lengthPx; y := y src |} in
  let g := computeCone src lengthPx halfAngleDeg windFromDeg in
  tip g = rotatePoint src tip0 (0 - (windFromDeg + 180))
  /\ left g = rotatePoint src tip0 (- halfAngleDeg - (windFromDeg + 180))
  /\ right g = rotatePoint src tip0 (halfAngleDeg - (windFromDeg + 180)).
Proof.
  cbv zeta. unfold computeCone. cbn [tip left right].
  rewrite !rotatePoint_plus. rewrite <- !rotate_by_downwind.
  repeat split; f_equal; lra.
Qed.

(** X7. The edges of the cone are its centerline turned by the half angle
    to either side: [left] is [tip] rotated about the source by minus the
    half angle, [right] is [tip] rotated by the half angle, and the two are
    equally far from the tip. *)
Theorem computeCone_symmetric (src : XY) (lengthPx halfAngleDeg windFromDeg : number) :
  let g := computeCone src lengthPx halfAngleDeg windFromDeg in
  left g = rotatePoint src (tip g) (- halfAngleDeg)
  /\ right g = rotatePoint src (tip g) halfAngleDeg
  /\ dist (tip g) (left g) = dist (tip g) (right g).
Proof.
  cbv zeta. unfold computeCone. cbn [tip left right].
  set (tip0 := {| x := x src + lengthPx; y := y src |}).
  set (down := downwindDeg windFromDeg).
  assert (El : rotatePoint src (rotatePoint src tip0 (- halfAngleDeg)) (- down)
               = rotatePoint src (rotatePoint src tip0 (- down)) (- halfAngleDeg)).
  { rewrite !rotatePoint_plus. f_equal. lra. }
  assert (Er : rotatePoint src (rotatePoint src tip0 halfAngleDeg) (- down)
               = rotatePoint src (rotatePoint src tip0 (- down)) halfAngleDeg).
  { rewrite !rotatePoint_plus. f_equal. lra. }
  split; [exact El |]. split; [exact Er |].
  rewrite !rotatePoint_pair_dist.
  unfold dist, rotatePoint, tip0. cbn [x y]. f_equal.
  unfold degToRad, Math.sin, Math.cos.
  replace (- halfAngleDeg * Math.PI / 180) with (- (halfAngleDeg * Math.PI / 180)) by lra.
  rewrite cos_neg, sin_neg. ring.
Qed.

(** X8. For every wind direction, also one outside [[0,360)], the tip of
    the cone is [lengthPx] away from the source along the screen angle
    [windFromDeg + 180]: [lengthPx * cos] to the right and [lengthPx * sin]
    up the screen (the screen's [y] grows downwards). *)
Theorem computeCone_tip_coordinates (src : XY)
    (lengthPx halfAngleDeg windFromDeg : number) :
  tip (computeCone src lengthPx halfAngleDeg windFromDeg)
  = {| x := x src + lengthPx * Math.cos (degToRad (windFromDeg + 180));
       y := y src - lengthPx * Math.sin (degToRad (windFromDeg + 180)) |}.
Proof.
  destruct (computeCone_points src lengthPx halfAngleDeg windFromDeg) as (-> & _).
  unfold rotatePoint. cbn [x y].
  replace (degToRad (0 - (windFromDeg + 180)))
    with (- degToRad (windFromDeg + 180)) by (unfold degToRad; lra).
  unfold Math.sin, Math.cos. rewrite cos_neg, sin_neg. f_equal; ring.
Qed.

(** X9. The three points of the cone depend on the wind direction only
    up to whole turns: [windFromDeg] and [windFromDeg + 360 k] give the same
    left, right and tip. *)
Theorem computeCone_whole_turns (src : XY)
    (lengthPx halfAngleDeg windFromDeg : number) (k : Z) :
  let g := computeCone src lengthPx halfAngleDeg windFromDeg in
  let g' := computeCone src lengthPx halfAngleDeg (windFromDeg + 360 * IZR k) in
  tip g' = tip g /\ left g' = left g /\ right g' = right g.
Proof.
  cbv zeta.
  destruct (computeCone_points src lengthPx halfAngleDeg windFromDeg)
    as (-> & -> & ->).
  destruct (computeCone_points src lengthPx halfAngleDeg (windFromDeg + 360 * IZR k))
    as (-> & -> & ->).
  repeat split.
  - replace (0 - (windFromDeg + 360 * IZR k + 180))
      with (0 - (windFromDeg + 180) + 360 * IZR (- k)) by (rewrite opp_IZR; lra).
    apply rotatePoint_turns.
  - replace (- halfAngleDeg - (windFromDeg + 360 * IZR k + 180))
      with (- halfAngleDeg - (windFromDeg + 180) + 360 * IZR (- k))
      by (rewrite opp_IZR; lra).
    apply rotatePoint_turns.
  - replace (halfAngleDeg - (windFromDeg + 360 * IZR k + 180))
      with (halfAngleDeg - (windFromDeg + 180) + 360 * IZR (- k))
      by (rewrite opp_IZR; lra).
    apply rotatePoint_turns.
Qed.

(** X10. The tip and both edge points of the cone are [|lengthPx|] away
    from the source, whatever the half angle and the wind direction. *)
Theorem computeCone_radius (src : XY) (lengthPx halfAngleDeg windFromDeg : number) :
  let g := computeCone src lengthPx halfAngleDeg windFromDeg in
  dist src (tip g) = Rabs lengthPx
  /\ dist src (left g) = Rabs lengthPx
  /\ dist src (right g) = Rabs lengthPx.
Proof. cbv zeta. apply ConeSpec.computeCone_tip_distance. Qed.

End ConeExtra.

(** ** More on cone.ts, second part *)

Module EnvelopeExtra.

Import Cone Envelope EnvelopeSpec.

(** *** Moving a point *)

Lemma moveLL_turns (start : LatLon) (bearingDeg distanceMeters : number) (k : Z) :
  moveLL start (bearingDeg + 360 * IZR k) distanceMeters
  = moveLL start bearingDeg distanceMeters.
Proof.
  unfold moveLL. cbv zeta.
  replace ((bearingDeg + 360 * IZR k) * Math.PI / 180)
    with (bearingDeg * Math.PI / 180 + 2 * IZR k * PI) by (unfold Math.PI; lra).
  unfold Math.sin, Math.cos.
  rewrite ConeExtra.cos_period_Z, ConeExtra.sin_period_Z. reflexivity.
Qed.

Lemma LatLon_eta (p : LatLon) : {| lat := lat p; lon := lon p |} = p.
Proof. destruct p; reflexivity. Qed.

(** X11. Away from the poles, [moveLL] displaces a point by exactly
    [distanceMeters] on the flat earth: the squares of its north and east
    displacements in meters add up to the square of the distance. *)
Theorem moveLL_flat_distance (start : LatLon) (bearingDeg distanceMeters : number) :
  metersPerDegreeLon (lat start) <> 0 ->
  let p := moveLL start bearingDeg distanceMeters in
  let north := (lat p - lat start) * metersPerDegreeLat in
  let east := (lon p - lon start) * metersPerDegreeLon (lat start) in
  north * north + east * east = distanceMeters * distanceMeters.
Proof. apply moveLL_distance. Qed.

Lemma equator_degree_of_longitude : metersPerDegreeLon 0 <> 0.
Proof.
  unfold metersPerDegreeLon, Math.cos. replace (0 * Math.PI / 180) with 0 by lra.
  rewrite cos_0. lra.
Qed.

Lemma moveLL_flat_distance_witness :
  let start := {| lat := 0; lon := 0 |} in
  metersPerDegreeLon (lat start) <> 0
  /\ (let p := moveLL start 90 100 in
      let north := (lat p - lat start) * metersPerDegreeLat in
      let east := (lon p - lon start) * metersPerDegreeLon (lat start) in
      north * north + east * east = 100 * 100).
Proof.
  cbv zeta. cbn [lat].
  split; [exact equator_degree_of_longitude |].
  exact (moveLL_flat_distance {| lat := 0; lon := 0 |} 90 100
           equator_degree_of_longitude).
Defined.

(** X12. [moveLL] by no distance stays where it is, and a bearing counts
    only up to whole turns: [bearingDeg] and [bearingDeg + 360 k] lead to
    the same point. *)
Theorem moveLL_bearing_turns (start : LatLon) (bearingDeg distanceMeters : number)
    (k : Z) :
  moveLL start bearingDeg 0 = start
  /\ moveLL start (bearingDeg + 360 * IZR k) distanceMeters
     = moveLL start bearingDeg distanceMeters.
Proof.
  split; [| apply moveLL_turns].
  unfold moveLL. cbv zeta. rewrite <- (LatLon_eta start) at 4.
  f_equal; unfold Rdiv; ring.
Qed.

(** *** The category multipliers *)

(** X13. Every terrain and stability tag, known or not, gives multipliers
    in a narrow band: the length multipliers lie in [[0.85,1.1]] and
    [[0.9,1.05]], the width multiplier in [[0.85,1.4375]]; a tag that is none
    of the named ones counts as the neutral one, with multiplier 1. *)
Theorem multipliers_bounded (terrain stability : string) :
  0.85 <= terrainLenMult terrain <= 1.1
  /\ 0.9 <= stabilityMult stability <= 1.05
  /\ 0.85 <= mixMult stability terrain <= 1.4375
  /\ (terrain <> "open"%string -> terrain <> "forest"%string ->
      terrain <> "urban"%string -> terrain <> "swamp"%string ->
      terrainLenMult terrain = 1.0)
  /\ (stability <> "stable"%string -> stability <> "convective"%string ->
      stabilityMult stability = 1.0
      /\ (terrain <> "urban"%string -> mixMult stability terrain = 1.0)).
Proof.
  split; [unfold terrainLenMult; repeat destruct (terrain === _); lra |].
  split; [unfold stabilityMult; repeat destruct (stability === _); lra |].
  split.
  { unfold mixMult. cbv zeta.
    destruct (stability === "stable"), (stability === "convective"),
      (terrain === "urban"); lra. }
  split.
  { intros H1 H2 H3 H4. unfold terrainLenMult.
    apply streq_false in H1, H2, H3, H4. rewrite H1, H2, H3, H4.
    destruct (terrain === "beach"); reflexivity. }
  intros H1 H2. apply streq_false in H1, H2.
  split; [unfold stabilityMult; rewrite H1, H2; reflexivity |].
  intros H3. apply streq_false in H3.
  unfold mixMult. cbv zeta. rewrite H1, H2, H3. lra.
Qed.

(** *** Elapsed minutes *)

(** X14. The elapsed minutes are a whole number, never negative; they are
    0 whenever the evaluation time is less than half a minute after the LKP
    time, also when it lies before it; otherwise they are the difference in
    minutes rounded to the nearest whole minute. *)
Theorem tMin_rounds_elapsed (Date_parse : string -> number) (input : EnvelopeInput) :
  let elapsed :=
    (Date_parse (now_time_iso input) - Date_parse (lkp_time_iso input)) / 60000 in
  (exists z : Z, (0 <= z)%Z /\ tMin Date_parse input = IZR z)
  /\ minutes_since_lkp (computeScentEnvelope Date_parse input) = tMin Date_parse input
  /\ (elapsed < / 2 -> tMin Date_parse input = 0)
  /\ (0 <= elapsed -> elapsed - / 2 < tMin Date_parse input <= elapsed + / 2).
Proof.
  cbv zeta. split; [apply tMin_integer |]. split; [reflexivity |].
  unfold tMin, Math.round, Math.max.
  set (e := (Date_parse (now_time_iso input) - Date_parse (lkp_time_iso input)) / 60000).
  pose proof (Zfloor_bound (e + / 2)) as [Hlo Hhi].
  split.
  - intros He. apply Rmax_left.
    assert (Hz : (Zfloor (e + / 2) < 1)%Z) by (apply lt_IZR; lra).
    apply IZR_le. lia.
  - intros He.
    assert (Hz : (0 <= Zfloor (e + / 2))%Z) by (apply Zfloor_lub; simpl; lra).
    apply IZR_le in Hz. rewrite Rmax_right by exact Hz. lra.
Qed.

(** *** Wind speed *)

Lemma L_m_monotone_wind (t w1 w2 : number) (terrain stability : string) :
  0 <= t -> w1 <= w2 ->
  L_m t w1 terrain stability <= L_m t w2 terrain stability.
Proof.
  intros Ht Hw. unfold L_m, L_ft, L_base_ft, L_wind_ft.
  pose proof (terrainLenMult_pos terrain) as Hp.
  pose proof (stabilityMult_pos stability) as Hs.
  pose proof (log_growth_nonneg t Ht) as Hl.
  repeat (apply Rmult_le_compat_r; [lra |]).
  assert (120 * w1 * Math.log (1 + t / 30) <= 120 * w2 * Math.log (1 + t / 30))
    by (apply Rmult_le_compat_r; [exact Hl | lra]).
  lra.
Qed.

Lemma W_eff_monotone (v1 v2 : number) :
  v1 <= v2 -> Math.min (Math.max 0 v1) 18 <= Math.min (Math.max 0 v2) 18.
Proof.
  intros H. unfold Math.min, Math.max, Rmin, Rmax.
  destruct (Rle_dec 0 v1), (Rle_dec 0 v2);
    repeat match goal with
      | |- context [Rle_dec ?u ?v] => destruct (Rle_dec u v)
      end; lra.
Qed.

Lemma W_eff_saturates (v : number) : 18 <= v -> Math.min (Math.max 0 v) 18 = 18.
Proof.
  intros H. unfold Math.min, Math.max, Rmin, Rmax.
  destruct (Rle_dec 0 v); [| lra]. destruct (Rle_dec v 18); lra.
Qed.

(** X15. At a fixed elapsed time, the envelope's length does not shrink
    when the wind speed grows, and it stops growing at 18 mph: every speed
    from 18 mph up gives the length of 18 mph. *)
Theorem length_grows_with_wind (t v1 v2 : number) (terrain stability : string) :
  0 <= t -> v1 <= v2 ->
  L_m t (Math.min (Math.max 0 v1) 18) terrain stability
  <= L_m t (Math.min (Math.max 0 v2) 18) terrain stability
  /\ (18 <= v1 ->
      L_m t (Math.min (Math.max 0 v2) 18) terrain stability
      = L_m t 18 terrain stability).
Proof.
  intros Ht Hv. split.
  - apply L_m_monotone_wind; [exact Ht | apply W_eff_monotone; exact Hv].
  - intros H18. rewrite W_eff_saturates by lra. reflexivity.
Qed.

Lemma length_grows_with_wind_witness :
  0 <= 60 /\ 5 <= 25
  /\ L_m 60 (Math.min (Math.max 0 5) 18) "open" "stable"
     <= L_m 60 (Math.min (Math.max 0 25) 18) "open" "stable".
Proof.
  assert (Ht : 0 <= 60) by lra. assert (Hv : 5 <= 25) by lra.
  split; [exact Ht |]. split; [exact Hv |].
  exact (proj1 (length_grows_with_wind 60 5 25 "open" "stable" Ht Hv)).
Defined.

(** X16. A wind speed below zero counts as no wind: the whole result is
    the result for a wind speed of 0. *)
Theorem negative_wind_is_calm (Date_parse : string -> number)
    (lkp_lat lkp_lon : number) (lkp_time_iso now_time_iso : string)
    (wind_from_deg wind_speed_mph temperature_f rel_humidity_pct : number)
    (cloud precip : string) (recent_rain : bool) (terrain stability : string) :
  wind_speed_mph <= 0 ->
  computeScentEnvelope Date_parse
    (mkInput lkp_lat lkp_lon lkp_time_iso now_time_iso wind_from_deg
       wind_speed_mph temperature_f rel_humidity_pct cloud precip recent_rain
       terrain stability)
  = computeScentEnvelope Date_parse
      (mkInput lkp_lat lkp_lon lkp_time_iso now_time_iso wind_from_deg
         0 temperature_f rel_humidity_pct cloud precip recent_rain
         terrain stability).
Proof.
  intros Hneg.
  unfold computeScentEnvelope, env_L_m, env_Width_end_m, env_c, axis, W_eff, W, tMin.
  cbn [Envelope.lkp_lat Envelope.lkp_lon Envelope.lkp_time_iso
       Envelope.now_time_iso Envelope.wind_from_deg Envelope.wind_speed_mph
       Envelope.temperature_f Envelope.rel_humidity_pct Envelope.cloud
       Envelope.precip Envelope.recent_rain Envelope.terrain Envelope.stability].
  replace (Math.max 0 wind_speed_mph) with (Math.max 0 0); [reflexivity |].
  unfold Math.max. rewrite !Rmax_left by lra. reflexivity.
Qed.

Lemma negative_wind_is_calm_witness :
  -4 <= 0
  /\ computeScentEnvelope epoch_clock
       (mkInput 0 0 "" "" 180 (-4) 75 50 "partly" "none" false "mixed" "neutral")
     = computeScentEnvelope epoch_clock
         (mkInput 0 0 "" "" 180 0 75 50 "partly" "none" false "mixed" "neutral").
Proof.
  assert (H : -4 <= 0) by lra.
  split; [exact H |].
  exact (negative_wind_is_calm epoch_clock 0 0 "" "" 180 (-4) 75 50
           "partly" "none" false "mixed" "neutral" H).
Defined.

(** *** The opening of the three fans *)

Lemma atan2_right_half (y0 x0 : number) : 0 < x0 -> Math.atan2 y0 x0 = atan (y0 / x0).
Proof. intros H. unfold Math.atan2. destruct (Rlt_dec 0 x0); [reflexivity | lra]. Qed.

(** X17. For every request the half angle of each fan lies strictly
    between 0 and a right angle, and the fans open wider from zone to zone:
    the core's half angle is smaller than the fringe's, which is smaller than
    the residual's. *)
Theorem fans_open_wider (Date_parse : string -> number) (input : EnvelopeInput) :
  let L := env_L_m Date_parse input in
  let Wd := env_Width_end_m Date_parse input in
  0 < Math.atan2 (W_core Wd) (L_core L)
  /\ Math.atan2 (W_core Wd) (L_core L) < Math.atan2 (W_fringe Wd) (L_fringe L)
  /\ Math.atan2 (W_fringe Wd) (L_fringe L) < Math.atan2 (W_res Wd) (L_res L)
  /\ Math.atan2 (W_res Wd) (L_res L) < PI / 2.
Proof.
  cbv zeta.
  pose proof (env_L_m_pos Date_parse input) as HL.
  pose proof (env_Width_end_m_pos Date_parse input) as HW.
  set (L := env_L_m Date_parse input) in *.
  set (Wd := env_Width_end_m Date_parse input) in *.
  clearbody L Wd. unfold number in L, Wd.
  unfold L_core, L_fringe, L_res, W_core, W_fringe, W_res.
  rewrite !atan2_right_half by lra.
  assert (Hq : 0 < Wd / L) by (apply Rdiv_lt_0_compat; assumption).
  assert (Hs : forall a b : R, 0 < b -> a * Wd / (b * L) = a / b * (Wd / L))
    by (intros a b Hb; field; lra).
  rewrite (Hs 0.45 0.55), (Hs 0.8 0.85), (Hs 1.15 1.0) by lra.
  assert (0.45 / 0.55 < 0.8 / 0.85 < 1.15 / 1.0) by lra.
  assert (0 < 0.45 / 0.55) by lra.
  split; [rewrite <- atan_0; apply atan_increasing; nra |].
  split; [apply atan_increasing; nra |].
  split; [apply atan_increasing; nra |].
  apply atan_bound.
Qed.

(** *** The confidence score over time *)

Lemma tauMinutes_values (tempF rh : number) (cloud : string) (windMph : number) :
  tauMinutes tempF rh cloud windMph = 120
  \/ tauMinutes tempF rh cloud windMph = 180
  \/ tauMinutes tempF rh cloud windMph = 240.
Proof.
  unfold tauMinutes. cbv zeta.
  destruct ((tempF >? 85) || (rh <? 35) || (windMph >? 15) || (cloud === "clear"));
    destruct ((tempF <? 65) && (rh >? 55)
              && ((cloud === "overcast") || (cloud === "night"))); auto.
Qed.

(** The score is the clamped, rounded product of the time decay and one
    factor that does not depend on the elapsed time. *)
Lemma confidenceScore_factor (tempF rh : number) (cloud precip : string)
    (recentRain : bool) (windMph : number) :
  exists m : R,
    0 < m <= 1.21275
    /\ forall tMin,
         confidenceScore tMin tempF rh cloud precip recentRain windMph
         = clamp (Math.round
                    (100 * (Math.exp (- tMin / tauMinutes tempF rh cloud windMph) * m)))
             5 100.
Proof.
  eexists. split.
  2:{ intros tMin. unfold confidenceScore. cbv zeta.
      rewrite !Rmult_assoc. reflexivity. }
  set (hum := if rh <? 30 then _ else _).
  set (temp := if tempF >? 85 then _ else _).
  set (sun := if cloud === "clear" then _ else _).
  set (rain := if recentRain then _ else _).
  set (wind := if windMph <=? 3 then _ else _).
  assert (Hh : 0.8 <= hum <= 1.1) by (unfold hum; cmp_cases; lra).
  assert (Ht : 0.85 <= temp <= 1.05) by (unfold temp; cmp_cases; lra).
  assert (Hs : 0.85 <= sun <= 1.05).
  { unfold sun. destruct (cloud === "clear"), (cloud === "partly"),
      ((cloud === "overcast") || (cloud === "night")); lra. }
  assert (Hr : 0.7 <= rain <= 1).
  { unfold rain. destruct recentRain, (precip === "heavy"),
      (precip === "moderate"), (precip === "light"); lra. }
  assert (Hw : 0.8 <= wind <= 1) by (unfold wind; cmp_cases; lra).
  clearbody hum temp sun rain wind.
  assert (H1 : 0 < rain * wind <= 1) by nra.
  assert (H2 : 0 < sun * (rain * wind) <= 1.05) by nra.
  assert (H3 : 0 < temp * (sun * (rain * wind)) <= 1.1025) by nra.
  nra.
Qed.

Lemma clamp_monotone (u v a b : number) : u <= v -> clamp u a b <= clamp v a b.
Proof.
  intros H. unfold clamp, Math.max, Math.min.
  apply Rle_max_compat_l, Rle_min_compat_l, H.
Qed.

Lemma round_monotone (u v : number) : u <= v -> Math.round u <= Math.round v.
Proof. intros H. unfold Math.round. apply IZR_le, Zfloor_le. lra. Qed.

Lemma exp_nondecreasing (u v : R) : u <= v -> exp u <= exp v.
Proof.
  intros [H | ->]; [left; apply exp_increasing; exact H | right; reflexivity].
Qed.

(** X18. With the weather fixed, the confidence score never rises as the
    elapsed minutes grow. *)
Theorem confidenceScore_decays (t1 t2 tempF rh : number) (cloud precip : string)
    (recentRain : bool) (windMph : number) :
  t1 <= t2 ->
  confidenceScore t2 tempF rh cloud precip recentRain windMph
  <= confidenceScore t1 tempF rh cloud precip recentRain windMph.
Proof.
  intros Ht.
  destruct (confidenceScore_factor tempF rh cloud precip recentRain windMph)
    as (m & [Hm0 Hm1] & E).
  rewrite !E. apply clamp_monotone, round_monotone.
  apply Rmult_le_compat_l; [lra |]. apply Rmult_le_compat_r; [lra |].
  unfold Math.exp. apply exp_nondecreasing.
  assert (Hi : 0 < / tauMinutes tempF rh cloud windMph).
  { apply Rinv_0_lt_compat.
    destruct (tauMinutes_values tempF rh cloud windMph) as [-> | [-> | ->]]; lra. }
  unfold Rdiv. nra.
Qed.

Lemma confidenceScore_decays_witness :
  0 <= 60
  /\ confidenceScore 60 75 50 "partly" "none" false 10
     <= confidenceScore 0 75 50 "partly" "none" false 10.
Proof.
  assert (H : 0 <= 60) by lra.
  split; [exact H |].
  exact (confidenceScore_decays 0 60 75 50 "partly" "none" false 10 H).
Defined.

Lemma exp_minus_two : exp (Ropp 2) <= / 3.
Proof.
  rewrite exp_Ropp. apply Rinv_le_contravar; [lra |].
  pose proof (exp_ineq1_le 2). lra.
Qed.

Lemma exp_minus_six : exp (Ropp 6) <= / 27.
Proof.
  replace (Ropp 6) with (Ropp 2 + (Ropp 2 + Ropp 2)) by lra. rewrite !exp_plus.
  pose proof exp_minus_two as H. pose proof (exp_pos (Ropp 2)) as Hp.
  assert (exp (Ropp 2) * exp (Ropp 2) <= / 9) by nra. nra.
Qed.

(** X19. From 24 hours (1440 minutes) on, whatever the weather, the score
    is at its floor of 5, the band is Low and the reset recommendation is 30
    minutes. *)
Theorem confidenceScore_floor_after_a_day (tMin tempF rh : number)
    (cloud precip : string) (recentRain : bool) (windMph : number) :
  1440 <= tMin ->
  let c := confidenceScore tMin tempF rh cloud precip recentRain windMph in
  c = 5 /\ confidenceBand c = "Low"%string /\ resetRecommendation c = 30.
Proof.
  intros Ht. cbv zeta.
  assert (E5 : confidenceScore tMin tempF rh cloud precip recentRain windMph = 5).
  { destruct (confidenceScore_factor tempF rh cloud precip recentRain windMph)
      as (m & [Hm0 Hm1] & E).
    rewrite E. clear E.
    assert (He : Math.exp (- tMin / tauMinutes tempF rh cloud windMph) <= / 27).
    { unfold Math.exp. apply Rle_trans with (exp (Ropp 6)); [| exact exp_minus_six].
      apply exp_nondecreasing.
      destruct (tauMinutes_values tempF rh cloud windMph) as [-> | [-> | ->]]; lra. }
    pose proof (exp_pos (- tMin / tauMinutes tempF rh cloud windMph)) as Hp.
    fold (Math.exp (- tMin / tauMinutes tempF rh cloud windMph)) in Hp.
    set (e := Math.exp (- tMin / tauMinutes tempF rh cloud windMph)) in *.
    assert (Hc : 0 < 100 * (e * m) < 4.5) by nra.
    unfold Math.round.
    pose proof (Zfloor_bound (100 * (e * m) + / 2)) as [Hlo Hhi].
    assert (Hz : (Zfloor (100 * (e * m) + / 2) < 5)%Z) by (apply lt_IZR; lra).
    rewrite clamp_integer. rewrite Z.min_r, Z.max_l by lia. reflexivity. }
  rewrite E5. split; [reflexivity |].
  split; [apply confidenceBand_Low; lra |].
  unfold resetRecommendation. cmp_cases; lra.
Qed.

Lemma confidenceScore_floor_after_a_day_witness :
  1440 <= 1440
  /\ confidenceScore 1440 55 70 "overcast" "none" false 5 = 5.
Proof.
  assert (H : 1440 <= 1440) by lra.
  split; [exact H |].
  exact (proj1 (confidenceScore_floor_after_a_day 1440 55 70 "overcast" "none"
                  false 5 H)).
Defined.

(** *** The polygons and the start points *)

Lemma fan_bearing_middle (axisDeg lengthM widthEndM : number) :
  fan_bearing axisDeg lengthM widthEndM 28 14 = axisDeg.
Proof.
  unfold fan_bearing. cbv zeta.
  replace (INR 14 / INR 28) with (/ 2) by (simpl; lra). lra.
Qed.

Lemma coneFan_vertex (lkp : LatLon) (axisDeg lengthM widthEndM : number) (i : nat) :
  (i < 29)%nat ->
  nth_error (coneFan lkp axisDeg lengthM widthEndM) (S i)
  = Some (moveLL lkp (fan_bearing axisDeg lengthM widthEndM 28 i) lengthM).
Proof.
  intros Hi. unfold coneFan. rewrite coneFan_points_shape. cbn [nth_error].
  rewrite nth_error_app1 by (rewrite length_map, length_seq; exact Hi).
  rewrite nth_error_map.
  replace (nth_error (seq 0 29) i) with (Some i); [reflexivity |].
  symmetry. rewrite nth_error_nth' with (d := 0%nat) by (rewrite length_seq; exact Hi).
  rewrite seq_nth by exact Hi. reflexivity.
Qed.

(** X20. The third start point ("Core Far") is a vertex of the core
    polygon: the middle one of its arc, vertex 15 of 0..30, straight down
    the axis at the core's length. *)
Theorem core_far_is_core_vertex (Date_parse : string -> number)
    (input : EnvelopeInput) :
  let r := computeScentEnvelope Date_parse input in
  exists sp : StartPoint,
    nth_error (recommended_start_points r) 2 = Some sp
    /\ nth_error (core (polygons r)) 15 = Some (point sp)
    /\ point sp
       = moveLL {| lat := lkp_lat input; lon := lkp_lon input |} (axis input)
           (L_core (env_L_m Date_parse input)).
Proof.
  cbv zeta. unfold computeScentEnvelope.
  cbn [recommended_start_points polygons core].
  eexists. split; [reflexivity |]. cbn [point].
  split; [| reflexivity].
  rewrite coneFan_vertex by lia. rewrite fan_bearing_middle. reflexivity.
Qed.

Lemma coneFan_turns (lkp : LatLon) (axisDeg lengthM widthEndM : number) (k : Z) :
  coneFan lkp (axisDeg + 360 * IZR k) lengthM widthEndM
  = coneFan lkp axisDeg lengthM widthEndM.
Proof.
  unfold coneFan. rewrite !coneFan_points_shape.
  f_equal. f_equal. apply map_ext. intros i.
  replace (fan_bearing (axisDeg + 360 * IZR k) lengthM widthEndM 28 i)
    with (fan_bearing axisDeg lengthM widthEndM 28 i + 360 * IZR k)
    by (unfold fan_bearing; cbv zeta; ring).
  apply moveLL_turns.
Qed.

Lemma axis_turns (input : EnvelopeInput) :
  exists k : Z, axis input = wind_from_deg input + 180 + 360 * IZR k.
Proof. unfold axis. apply ConeExtra.downwindDeg_turns. Qed.

(** X21. The polygons and the start points are those of the bearing
    [wind_from_deg + 180] taken as it is: the remainder modulo 360, and its
    sign for a direction below -180, make no difference to where the points
    are. *)
Theorem envelope_geometry_ignores_turns (Date_parse : string -> number)
    (input : EnvelopeInput) :
  let r := computeScentEnvelope Date_parse input in
  let lkp := {| lat := lkp_lat input; lon := lkp_lon input |} in
  let bearing := wind_from_deg input + 180 in
  let L := env_L_m Date_parse input in
  let Wd := env_Width_end_m Date_parse input in
  core (polygons r) = coneFan lkp bearing (L_core L) (W_core Wd)
  /\ fringe (polygons r) = coneFan lkp bearing (L_fringe L) (W_fringe Wd)
  /\ residual (polygons r) = coneFan lkp bearing (L_res L) (W_res Wd)
  /\ map point (recommended_start_points r)
     = [lkp; moveLL lkp bearing (0.35 * L); moveLL lkp bearing (0.55 * L)].
Proof.
  cbv zeta. unfold computeScentEnvelope.
  cbn [polygons core fringe residual recommended_start_points map point].
  destruct (axis_turns input) as (k & ->).
  rewrite !coneFan_turns, !moveLL_turns. repeat split.
Qed.

(** X22. Away from the poles, every vertex of a fan polygon is the LKP or
    lies exactly the fan's length from it on the flat earth. *)
Theorem coneFan_vertices_on_arc (lkp : LatLon) (axisDeg lengthM widthEndM : number) :
  metersPerDegreeLon (lat lkp) <> 0 ->
  Forall
    (fun v =>
       v = lkp
       \/ (let north := (lat v - lat lkp) * metersPerDegreeLat in
           let east := (lon v - lon lkp) * metersPerDegreeLon (lat lkp) in
           north * north + east * east = lengthM * lengthM))
    (coneFan lkp axisDeg lengthM widthEndM).
Proof.
  intros Hne. unfold coneFan. rewrite coneFan_points_shape.
  constructor; [left; reflexivity |].
  apply Forall_app. split.
  - apply Forall_map, Forall_forall. intros i _. right.
    apply (moveLL_distance lkp _ lengthM Hne).
  - constructor; [left; reflexivity | constructor].
Qed.

Lemma coneFan_vertices_on_arc_witness :
  let lkp := {| lat := 0; lon := 0 |} in
  metersPerDegreeLon (lat lkp) <> 0
  /\ Forall
       (fun v =>
          v = lkp
          \/ (let north := (lat v - lat lkp) * metersPerDegreeLat in
              let east := (lon v - lon lkp) * metersPerDegreeLon (lat lkp) in
              north * north + east * east = 100 * 100))
       (coneFan lkp 90 100 50).
Proof.
  cbv zeta. cbn [lat].
  split; [exact equator_degree_of_longitude |].
  exact (coneFan_vertices_on_arc {| lat := 0; lon := 0 |} 90 100 50
           equator_degree_of_longitude).
Defined.

End EnvelopeExtra.

(** ** pages/api/wind.ts *)

Module WindApiSpec.

Import WindApi.

Section NearestHour.

Variable Date_parse : string -> number.
Variable target : number.

Lemma nearest_loop_invariant (rest : list string) :
  forall (pre : list string) (best : nat) (bestDiff : extnum),
    match bestDiff with
    | Infinity => pre = []
    | Finite d =>
        exists tb,
          nth_error pre best = Some tb /\ d = Rabs (Date_parse tb - target)
          /\ forall j tj, nth_error pre j = Some tj ->
               d <= Rabs (Date_parse tj - target) /\ ((j < best)%nat -> d < Rabs (Date_parse tj - target))
    end ->
    pre ++ rest <> [] ->
    let b := nearest_loop Date_parse rest target (List.length pre) best bestDiff in
    exists tb,
      nth_error (pre ++ rest) b = Some tb
      /\ forall j tj, nth_error (pre ++ rest) j = Some tj ->
           Rabs (Date_parse tb - target) <= Rabs (Date_parse tj - target) /\ ((j < b)%nat -> Rabs (Date_parse tb - target) < Rabs (Date_parse tj - target)).
Proof.
  induction rest as [| time rest IH]; intros pre best bestDiff Hinv Hne; cbn zeta.
  - cbn [nearest_loop]. rewrite app_nil_r in *.
    destruct bestDiff as [d |]; [| contradiction].
    destruct Hinv as (tb & Hb & -> & Hall). exists tb. split; [exact Hb | exact Hall].
  - cbn [nearest_loop]. cbv zeta. unfold Math_abs.
    replace (pre ++ time :: rest) with ((pre ++ [time]) ++ rest)
      by (rewrite <- app_assoc; reflexivity).
    replace (S (List.length pre)) with (List.length (pre ++ [time]))
      by (rewrite length_app; cbn [List.length]; lia).
    assert (Hhere : nth_error (pre ++ [time]) (List.length pre) = Some time).
    { rewrite nth_error_app2 by lia. rewrite Nat.sub_diag. reflexivity. }
    assert (Hsplit : forall j tj, nth_error (pre ++ [time]) j = Some tj ->
              ((j < List.length pre)%nat /\ nth_error pre j = Some tj)
              \/ (j = List.length pre /\ tj = time)).
    { intros j tj Hj. destruct (Nat.lt_ge_cases j (List.length pre)) as [Hlt | Hge].
      - left. split; [exact Hlt |]. rewrite nth_error_app1 in Hj by exact Hlt. exact Hj.
      - right. assert (Hlen : (j < List.length (pre ++ [time]))%nat)
          by (apply nth_error_Some; rewrite Hj; discriminate).
        rewrite length_app in Hlen. cbn [List.length] in Hlen.
        assert (j = List.length pre) by lia. subst j.
        rewrite Hhere in Hj. split; [reflexivity | congruence]. }
    assert (Hne' : (pre ++ [time]) ++ rest <> [])
      by (destruct pre; discriminate).
    destruct (lt_ext (Rabs (Date_parse time - target)) bestDiff) eqn:Hlt.
    + apply IH; [| exact Hne'].
      exists time. split; [exact Hhere |]. split; [reflexivity |].
      intros j tj Hj. destruct (Hsplit j tj Hj) as [[Hjlt Hjpre] | [-> ->]].
      * destruct bestDiff as [d |].
        -- cbn [lt_ext] in Hlt. apply Rltb_true in Hlt.
           destruct Hinv as (tb & _ & _ & Hall).
           destruct (Hall j tj Hjpre) as [Hle _]. split; intros; lra.
        -- subst pre. cbn [List.length] in Hjlt. lia.
      * split; [lra | lia].
    + destruct bestDiff as [d |]; [| discriminate].
      cbn [lt_ext] in Hlt. apply Rltb_false in Hlt.
      destruct Hinv as (tb & Hb & Hd & Hall).
      assert (Hbest : (best < List.length pre)%nat)
        by (apply nth_error_Some; rewrite Hb; discriminate).
      apply IH; [| exact Hne'].
      exists tb. split; [rewrite nth_error_app1 by exact Hbest; exact Hb |].
      split; [exact Hd |].
      intros j tj Hj. destruct (Hsplit j tj Hj) as [[Hjlt Hjpre] | [-> ->]].
      * apply Hall; exact Hjpre.
      * split; [lra | lia].
Qed.

(** X23. On a list of hours that is not empty, the handler's search
    returns the index of an entry of the list that is nearest in time to the
    target; every earlier entry is strictly farther away, so of several
    nearest entries the first one is taken. *)
Theorem nearestHour_is_nearest (times : list string) :
  times <> [] ->
  let b := nearestHour Date_parse times target in
  (b < List.length times)%nat
  /\ exists tb,
       nth_error times b = Some tb
       /\ forall j tj, nth_error times j = Some tj ->
            Rabs (Date_parse tb - target) <= Rabs (Date_parse tj - target) /\ ((j < b)%nat -> Rabs (Date_parse tb - target) < Rabs (Date_parse tj - target)).
Proof.
  intros Hne. cbv zeta. unfold nearestHour. cbv zeta.
  destruct (nearest_loop_invariant times [] 0%nat Infinity eq_refl Hne)
    as (tb & Hb & Hall).
  cbn [app List.length] in Hb, Hall.
  split; [apply nth_error_Some; rewrite Hb; discriminate |].
  exists tb. split; [exact Hb | exact Hall].
Qed.

End NearestHour.

Lemma nearestHour_is_nearest_witness :
  let parse := fun s : string =>
    if s === "a" then 0 else if s === "b" then 3600000 else 7200000 in
  let times := ["a"; "b"; "c"]%string in
  times <> []
  /\ lt (nearestHour parse times 5400000) (List.length times).
Proof.
  cbv zeta.
  assert (H : ["a"; "b"; "c"]%string <> []) by discriminate.
  split; [exact H |].
  exact (proj1 (nearestHour_is_nearest
                  (fun s : string =>
                     if s === "a" then 0 else if s === "b" then 3600000 else 7200000)
                  5400000 ["a"; "b"; "c"]%string H)).
Defined.

(** X24. The speed the handler answers, read back in mph by the page,
    is the service's km/h times 0.621371; it is 0 for no wind and never
    negative for a speed that is not. *)
Theorem wind_speed_chain (ws : number) :
  Cone.mpsToMph (wind_speed_mps ws) = ws * 0.621371
  /\ wind_speed_mps 0 = 0
  /\ (0 <= ws -> 0 <= wind_speed_mps ws).
Proof.
  unfold Cone.mpsToMph, wind_speed_mps. cbv zeta. repeat split; intros; lra.
Qed.

End WindApiSpec.

(** ** components/LiveMap.tsx *)

Module LiveMapSpec.

Import LiveMap.

Lemma streq_refl (a : string) : (a === a) = true.
Proof. unfold streq. apply String.eqb_refl. Qed.

(** *** The active LKP *)

Lemma filter_other_ids_nil (k : LKP) :
  filter (fun p => negb (id p === id k)) [k] = [].
Proof. cbn [filter]. rewrite streq_refl. reflexivity. Qed.

Lemma click_keeps_single_lkp (uid isoNow : string) (lat0 lon0 : number)
    (st : PageState) :
  (lkps st = [] /\ activeLkpId st = None)
  \/ (exists k, lkps st = [k] /\ activeLkpId st = Some (id k)) ->
  let st' := onMapClick uid isoNow lat0 lon0 st in
  (lkps st' = [] /\ activeLkpId st' = None)
  \/ (exists k, lkps st' = [k] /\ activeLkpId st' = Some (id k)).
Proof.
  intros Hinv. cbv zeta. unfold onMapClick.
  destruct (mapMode st); [| exact Hinv].
  destruct (appMode st); [| exact Hinv].
  destruct Hinv as [[Hl Ha] | (k & Hl & Ha)]; rewrite Hl, Ha.
  - cbn [activeLkp]. destruct (lockSource st); right; eexists; split; reflexivity.
  - cbn [activeLkp find]. rewrite streq_refl.
    destruct (lockSource st).
    + right. exists k. rewrite Hl, Ha. split; reflexivity.
    + right. cbn [lkps activeLkpId]. rewrite filter_other_ids_nil.
      eexists; split; reflexivity.
Qed.

(** X25. However the page is used (clicks on the map in any mode, changes
    of the switches, removals of traps), the live list holds at most one
    LKP, and when it holds one, that one is the active LKP. *)
Theorem live_page_has_one_lkp (st : PageState) :
  reachable st ->
  (lkps st = [] /\ activeLkpId st = None)
  \/ (exists k, lkps st = [k] /\ activeLkpId st = Some (id k)
                /\ activeLkp (lkps st) (activeLkpId st) = Some k).
Proof.
  intros Hr.
  assert (Hinv : (lkps st = [] /\ activeLkpId st = None)
                 \/ (exists k, lkps st = [k] /\ activeLkpId st = Some (id k))).
  { induction Hr as [| st st' Hr IH Hstep].
    - left. split; reflexivity.
    - destruct Hstep as [uid isoNow lat0 lon0 st | am mm lock lbl st | t st].
      + apply click_keeps_single_lkp. exact IH.
      + exact IH.
      + exact IH. }
  destruct Hinv as [H | (k & Hl & Ha)]; [left; exact H |].
  right. exists k. split; [exact Hl |]. split; [exact Ha |].
  rewrite Hl, Ha. cbn [activeLkp find]. rewrite streq_refl. reflexivity.
Qed.

Lemma live_page_has_one_lkp_witness :
  let st := onMapClick "lkp_1" "2024-01-01T12:00:00.000Z" 27.49 (-82.45) initialPage in
  reachable st
  /\ ((lkps st = [] /\ activeLkpId st = None)
      \/ (exists k, lkps st = [k] /\ activeLkpId st = Some (id k)
                    /\ activeLkp (lkps st) (activeLkpId st) = Some k)).
Proof.
  cbv zeta.
  assert (H : reachable
                (onMapClick "lkp_1" "2024-01-01T12:00:00.000Z" 27.49 (-82.45)
                   initialPage))
    by (eapply reachable_step; [apply reachable_initial | apply step_click]).
  split; [exact H | exact (live_page_has_one_lkp _ H)].
Defined.

Lemma upsert_lookup (lkp : LKP) (prev : list LKP) :
  let l := lkp :: filter (fun p => negb (id p === id lkp)) prev in
  activeLkp l (Some (id lkp)) = Some lkp
  /\ List.length (filter (fun p => id p === id lkp) l) = 1%nat.
Proof.
  cbv zeta. cbn [activeLkp find filter].
  rewrite streq_refl. split; [reflexivity |]. cbn [List.length]. f_equal.
  induction prev as [| p l IH]; [reflexivity |].
  cbn [filter]. destruct (id p === id lkp) eqn:E; cbn [negb filter].
  - exact IH.
  - rewrite E. exact IH.
Qed.

(** X26. A click in live mode with the source mode on, when the point is
    not locked or there is no active LKP yet, makes the clicked position the
    active LKP, stamped with the time of the click; no other LKP of the list
    carries its identifier, and the traps are left alone. With the lock on
    and an active LKP, the click changes nothing. *)
Theorem click_sets_active_lkp (uid isoNow : string) (lat0 lon0 : number)
    (st : PageState) :
  mapMode st = setSource -> appMode st = live ->
  let st' := onMapClick uid isoNow lat0 lon0 st in
  (lockSource st = false \/ activeLkp (lkps st) (activeLkpId st) = None ->
   exists k,
     activeLkp (lkps st') (activeLkpId st') = Some k
     /\ lat k = lat0 /\ lon k = lon0 /\ timeISO k = isoNow
     /\ List.length (filter (fun p => id p === id k) (lkps st')) = 1%nat
     /\ traps st' = traps st)
  /\ (lockSource st = true -> activeLkp (lkps st) (activeLkpId st) <> None ->
      st' = st).
Proof.
  intros Hm Ha. cbv zeta. unfold onMapClick. rewrite Hm, Ha.
  split.
  - intros Hfree.
    pose proof (fun id0 label0 =>
      upsert_lookup
        {| id := id0; lat := lat0; lon := lon0; timeISO := isoNow;
           label := Some label0 |} (lkps st)) as Hnew.
    cbn [id] in Hnew.
    destruct (lockSource st) eqn:Hlock;
      destruct (activeLkp (lkps st) (activeLkpId st)) as [k0 |] eqn:Hact;
      try (destruct Hfree; discriminate);
      cbn [lkps activeLkpId traps];
      match goal with
      | |- context [activeLkp (?lkp :: _) (Some ?i)] =>
          destruct (Hnew i (match label lkp with Some l => l | None => ""%string end))
            as [Hfind Hone]
      end;
      cbn [label] in Hfind, Hone;
      eexists; (split; [exact Hfind |]);
      cbn [lat lon timeISO id]; repeat split; exact Hone.
  - intros Hlock Hact. rewrite Hlock.
    destruct (activeLkp (lkps st) (activeLkpId st)); [reflexivity | contradiction].
Qed.

Lemma click_sets_active_lkp_witness :
  let st' := onMapClick "lkp_1" "2024-01-01T12:00:00.000Z" 27.49 (-82.45) initialPage in
  mapMode initialPage = setSource /\ appMode initialPage = live
  /\ exists k, activeLkp (lkps st') (activeLkpId st') = Some k /\ lat k = 27.49.
Proof.
  cbv zeta.
  assert (Hm : mapMode initialPage = setSource) by reflexivity.
  assert (Ha : appMode initialPage = live) by reflexivity.
  split; [exact Hm |]. split; [exact Ha |].
  destruct (click_sets_active_lkp "lkp_1" "2024-01-01T12:00:00.000Z" 27.49
              (-82.45) initialPage Hm Ha) as [Hset _].
  destruct Hset as (k & Hk & Hlat & _); [right; reflexivity |].
  exists k. split; [exact Hk | exact Hlat].
Defined.

(** *** Traps *)




(** *** Time bands *)

Lemma includes_In (prev : list Z) (m : Z) : includes prev m = true <-> In m prev.
Proof.
  unfold includes. rewrite existsb_exists. split.
  - intros (x0 & Hin & E). apply Z.eqb_eq in E. subst x0. exact Hin.
  - intros Hin. exists m. split; [exact Hin | apply Z.eqb_refl].
Qed.

Lemma In_toggleBand (m x0 : Z) (prev : list Z) :
  In x0 (toggleBand m prev)
  <-> (x0 <> m /\ In x0 prev) \/ (x0 = m /\ ~ In m prev).
Proof.
  unfold toggleBand. destruct (includes prev m) eqn:E.
  - apply includes_In in E. rewrite filter_In, negb_true_iff, Z.eqb_neq. tauto.
  - assert (Hn : ~ In m prev)
      by (intros Hin; apply includes_In in Hin; congruence).
    rewrite in_app_iff. cbn [In].
    destruct (Z.eq_dec x0 m) as [-> | Hne]; [tauto |].
    split; [intros [H | [H | []]]; [tauto | congruence] | tauto].
Qed.

(** X28. A band button flips the membership of its own band and of no
    other: after the click the band is in the set exactly when it was not
    before, and every other band is in the set exactly when it was. *)
Theorem toggleBand_flips (m : Z) (prev : list Z) :
  includes (toggleBand m prev) m = negb (includes prev m)
  /\ forall x0, x0 <> m -> includes (toggleBand m prev) x0 = includes prev x0.
Proof.
  split.
  - destruct (includes prev m) eqn:E; cbn [negb].
    + apply not_true_is_false. rewrite includes_In, In_toggleBand.
      apply includes_In in E. tauto.
    + rewrite includes_In, In_toggleBand. right. split; [reflexivity |].
      intros Hin. apply includes_In in Hin. congruence.
  - intros x0 Hne. apply eq_true_iff_eq.
    rewrite !includes_In, In_toggleBand. tauto.
Qed.

Lemma toggleBand_NoDup (m : Z) (prev : list Z) :
  NoDup prev -> NoDup (toggleBand m prev).
Proof.
  intros Hnd. unfold toggleBand. destruct (includes prev m) eqn:E.
  - apply NoDup_filter. exact Hnd.
  - assert (Hn : ~ In m prev)
      by (intros Hin; apply includes_In in Hin; congruence).
    apply NoDup_app; [exact Hnd | constructor; [intros [] | constructor] |].
    intros a Ha [<- | []]. exact (Hn Ha).
Qed.

(** X29. Starting from the bands shown at first and clicking band
    buttons in any order, the set of bands never lists a band twice and
    never holds anything but the five buttons' minutes. *)
Theorem bands_stay_distinct (bands : list Z) :
  bands_reachable bands ->
  NoDup bands /\ incl bands bandButtons /\ (List.length bands <= 5)%nat.
Proof.
  intros Hr.
  assert (H : NoDup bands /\ incl bands bandButtons).
  { induction Hr as [| m prev Hm Hr [IHn IHi]].
    - split.
      + unfold initialBandSet.
        repeat (constructor; [cbn [In]; intros H; repeat destruct H as [H | H]; try discriminate; exact H |]).
        constructor.
      + unfold initialBandSet, bandButtons. intros a Ha. cbn [In] in *. tauto.
    - split; [apply toggleBand_NoDup; exact IHn |].
      intros a Ha. apply In_toggleBand in Ha.
      destruct Ha as [[_ Ha] | [-> _]]; [apply IHi; exact Ha | exact Hm]. }
  destruct H as [Hn Hi]. split; [exact Hn |]. split; [exact Hi |].
  apply (NoDup_incl_length Hn Hi).
Qed.

Lemma bands_stay_distinct_witness :
  bands_reachable (toggleBand 240 initialBandSet)
  /\ NoDup (toggleBand 240 initialBandSet).
Proof.
  assert (H : bands_reachable (toggleBand 240 initialBandSet)).
  { apply bands_toggle; [| apply bands_initial].
    unfold bandButtons. cbn [In]. tauto. }
  split; [exact H | exact (proj1 (bands_stay_distinct _ H))].
Defined.

End LiveMapSpec.
